(** * OpenOA web interface: a shallow embedding of the dashboard client
      and of the ingestion pipeline it talks to.

    The TypeScript sources embedded here are
    - [services/api.ts]            (module [Api]),
    - [AnalysisForm.tsx]           (module [AnalysisForm]),
    - [App.tsx]                    (module [App]),
    - [MultiAnalysisSelector.tsx]  (module [MultiAnalysisSelector]),
    - [types/api.ts]               (module [Types]),
    - [utils/export.ts]            (module [ExportUtils]),
    - [ComparisonView.tsx]         (module [ComparisonView]),
    - [ResultPanel.tsx]            (modules [ResultPanel], [ResultPanelV1]),
    - [utils/chartTransforms.ts]   (module [ChartTransforms]).

    The backend is not among the sources. Its column mapper, dataset
    registry and result normalisation are modelled from the design
    document (modules [ColumnMapper], [Csv], [DatasetRegistry],
    [Dispatcher]); the alias table of the column mapper is the one the
    deployment plan records.

    Conventions. A promise is embedded by its settled outcome. A
    property that may be [undefined] or [null] is an [option]. A
    JavaScript number that the code only ever uses as an integer (an
    iteration count, an HTTP status) is a [Z] or a [nat]; the metrics of
    an analysis result are numbers of a type that is left open, and the
    components that compute with them are run on IEEE doubles
    ([JsNumber]) and on exact rationals ([Exact]). What the platform
    provides ([fetch], [Response.json], [Number.prototype.toString],
    [toFixed], [Date]) is a parameter of the code that calls it. *)

From Stdlib Require Import ZArith QArith Qminmax Lqa List String Ascii Bool Lia.
From Stdlib Require Import DecimalString.
From Stdlib Require Floats.PrimFloat Uint63.
From stdpp Require Import gmap strings list.

Local Open Scope Z_scope.
Local Open Scope string_scope.

(* ================================================================== *)
(** * Part I: definitions                                               *)
(* ================================================================== *)

(** ** JavaScript odds and ends *)

Module Js.

(** What a rejected promise (or a [throw]) carries. [Error] is
    [new Error(message)]; [SyntaxError] is what [response.json()]
    rejects with on a body that is not JSON; [NetworkFailure] is the
    rejection of [fetch] itself. *)
Inductive exn : Type :=
| Error (message : string)
| SyntaxError
| NetworkFailure (reason : string).

(** A settled promise. *)
Inductive Promise (A : Type) : Type :=
| Resolved (v : A)
| Rejected (e : exn).
Arguments Resolved {A} v.
Arguments Rejected {A} e.

(** [err instanceof Error ? err.message : fallback]. Whatever this
    client rejects with is an [Error] (the built-in [SyntaxError] and
    the [TypeError] of a failed [fetch] are), so the fallback is never
    what is shown; the message of a [SyntaxError] is the engine's. *)
Definition message_or (fallback : string) (e : exn) : string :=
  match e with
  | Error m => m
  | SyntaxError => "Unexpected token in JSON"
  | NetworkFailure r => r
  end.

(** The values an object literal handed to [JSON.stringify] holds in
    this code base. *)
Inductive value : Type :=
| Undefined
| Number (n : Z)
| Str (s : string).

Definition is_undefined (v : value) : bool :=
  match v with Undefined => true | _ => false end.

(** [JSON.stringify] of an object literal keeps the properties in
    order and leaves out those whose value is [undefined]. The text
    itself is not modelled: the body is kept as the list of
    serialised properties. *)
Definition JSON_stringify (o : list (string * value)) : list (string * value) :=
  List.filter (fun kv => negb (is_undefined (snd kv))) o.

(** Template-literal rendering of a non-negative integer. *)
Definition show_nat (n : nat) : string :=
  NilZero.string_of_uint (Nat.to_uint n).

(** [a || b] on strings: the empty string is falsy. *)
Definition or_else (a b : string) : string :=
  match a with EmptyString => b | _ => a end.

End Js.

(** ** types/api.ts: the analysis types *)

Inductive AnalysisType : Type :=
| aep_monte_carlo
| electrical_losses
| wake_losses
| turbine_ideal_energy
| eya_gap_analysis.

Global Instance AnalysisType_eq_dec : EqDecision AnalysisType.
Proof. solve_decision. Defined.

(** The string each analysis type is at run time. *)
Definition type_name (type : AnalysisType) : string :=
  match type with
  | aep_monte_carlo => "aep_monte_carlo"
  | electrical_losses => "electrical_losses"
  | wake_losses => "wake_losses"
  | turbine_ideal_energy => "turbine_ideal_energy"
  | eya_gap_analysis => "eya_gap_analysis"
  end.

(** ** services/api.ts *)

Module Api.
Import Js.

(** An uploaded [File]. *)
Record File : Type := {
  file_name : string;
  file_content : string
}.

Inductive Body : Type :=
| JsonBody (props : list (string * value))
| FormData (fields : list (string * File)).

(** The second argument of [request]. *)
Record RequestInit : Type := {
  init_method : option string;
  init_headers : option (list (string * string));
  init_body : option Body
}.

(** What [fetch] is called with. *)
Record HttpRequest : Type := {
  url : string;
  method : option string;
  headers : list (string * string);
  body : option Body
}.

(** The [Response] object: its [ok] and [status] properties and what
    its [text()] and [json()] methods settle to ([None]: the body is
    not JSON and [json()] rejects). *)
Record Response (T : Type) : Type := {
  ok : bool;
  status : nat;
  text : string;
  json : option T
}.
Arguments ok {T} _.
Arguments status {T} _.
Arguments text {T} _.
Arguments json {T} _.

Section Client.
Variable T : Type.
Variable API_URL : string.
(** The network: what [fetch] settles to for a given call. *)
Variable fetch : HttpRequest -> Promise (Response T).

(** The options object [{ headers: {'Content-Type': ...,
    ...init?.headers}, ...init }]: the spread of [init] comes last,
    so an [init] that has headers of its own replaces the merged
    ones. *)
Definition request_args (path : string) (init : option RequestInit) : HttpRequest :=
  {| url := API_URL +:+ path;
     method := init ≫= init_method;
     headers := match init ≫= init_headers with
                | Some hs => hs
                | None => [("Content-Type", "application/json")]
                end;
     body := init ≫= init_body |}.

(** What the client does with a settled [fetch], given the prefix
    of its failure message. *)
Definition settle (prefix : string) (r : Promise (Response T)) : Promise T :=
  match r with
  | Rejected e => Rejected e
  | Resolved response =>
      if negb (ok response) then
        let message := text response in
        Rejected (Error (or_else message (prefix +:+ show_nat (status response))))
      else
        match json response with
        | Some v => Resolved v
        | None => Rejected SyntaxError
        end
  end.

Definition request (path : string) (init : option RequestInit) : Promise T :=
  settle "Request failed with " (fetch (request_args path init)).

Definition fetchHealth : Promise T := request "/health" None.

Definition aep_init (iterations : Z) (file_id : option string) : RequestInit :=
  {| init_method := Some "POST";
     init_headers := None;
     init_body := Some (JsonBody (JSON_stringify
       [("iterations", Number iterations);
        ("file_id", match file_id with Some f => Str f | None => Undefined end)])) |}.

Definition runAepAnalysis (iterations : Z) (file_id : option string) : Promise T :=
  request "/api/v1/analysis/aep" (Some (aep_init iterations file_id)).

Definition endpoints (type : AnalysisType) : string :=
  match type with
  | aep_monte_carlo => "/api/v1/analysis/aep"
  | electrical_losses => "/api/v1/analysis/electrical-losses"
  | wake_losses => "/api/v1/analysis/wake-losses"
  | turbine_ideal_energy => "/api/v1/analysis/turbine-ideal-energy"
  | eya_gap_analysis => "/api/v1/analysis/eya-gap"
  end.

Definition runAnalysisByType (type : AnalysisType) (params : list (string * value))
  : Promise T :=
  let endpoint := endpoints type in
  match endpoint with
  | EmptyString => Rejected (Error ("Unknown analysis type: " +:+ type_name type))
  | _ => request endpoint
           (Some {| init_method := Some "POST";
                    init_headers := None;
                    init_body := Some (JsonBody (JSON_stringify params)) |})
  end.

Definition upload_args (file : File) : HttpRequest :=
  {| url := API_URL +:+ "/api/v1/upload-plant-data";
     method := Some "POST";
     headers := [];
     body := Some (FormData [("file", file)]) |}.

Definition uploadPlantData (file : File) : Promise T :=
  settle "Upload failed with " (fetch (upload_args file)).

End Client.

End Api.

(** ** AnalysisForm.tsx *)

Module AnalysisForm.

(** The form's only state is the number typed into the field. *)
Record State : Type := { iterations : Z }.

Definition init (defaultIterations : Z) : State :=
  {| iterations := defaultIterations |}.



End AnalysisForm.

(** ** App.tsx *)

Module App.
Import Js.

Definition DEFAULT_ITERATIONS : Z := 1000.

Record ActiveDataset : Type := {
  id : string;
  name : string;
  isDefault : bool
}.

(** The body of a successful [POST /upload-plant-data]. *)
Record UploadResponse : Type := {
  up_status : string;
  up_message : string;
  file_id : string;
  filename : string;
  file_type : string;
  row_count : nat;
  columns : list string;
  file_size_bytes : nat
}.

Definition default_dataset : ActiveDataset :=
  {| id := "default";
     name := "la-haute-borne-data-2014-2015.csv";
     isDefault := true |}.

Section Dashboard.
(** The analysis response is opaque to the state logic. *)
Variable R : Type.

Record State : Type := {
  analysis : option R;
  isLoading : bool;
  isUploading : bool;
  error : option string;
  uploadSuccess : option string;
  activeDataset : option ActiveDataset
}.

Definition initial : State :=
  {| analysis := None;
     isLoading := false;
     isUploading := false;
     error := None;
     uploadSuccess := None;
     activeDataset := Some default_dataset |}.



(** [runAnalysis], once the call has settled. *)
Definition runAnalysis_settled (s : State) (outcome : Promise R) : State :=
  match outcome with
  | Resolved response =>
      {| analysis := Some response;
         isLoading := false;
         isUploading := isUploading s;
         error := None;
         uploadSuccess := uploadSuccess s;
         activeDataset := activeDataset s |}
  | Rejected err =>
      {| analysis := analysis s;
         isLoading := false;
         isUploading := isUploading s;
         error := Some (message_or "Analysis failed" err);
         uploadSuccess := uploadSuccess s;
         activeDataset := activeDataset s |}
  end.

(** [handleFileUpload], once [uploadPlantData] has settled. *)
Definition handleFileUpload_settled (s : State) (outcome : Promise UploadResponse) : State :=
  match outcome with
  | Resolved response =>
      {| analysis := analysis s;
         isLoading := isLoading s;
         isUploading := false;
         error := None;
         uploadSuccess := Some ("Successfully uploaded " +:+ filename response
                                +:+ " (" +:+ show_nat (row_count response)
                                +:+ " rows, " +:+ show_nat (length (columns response))
                                +:+ " columns)");
         activeDataset := Some {| id := file_id response;
                                  name := filename response;
                                  isDefault := false |} |}
  | Rejected err =>
      {| analysis := analysis s;
         isLoading := isLoading s;
         isUploading := false;
         error := Some (message_or "Upload failed" err);
         uploadSuccess := None;
         activeDataset := activeDataset s |}
  end.

(** [onClearDataset] *)
Definition onClearDataset (s : State) : State :=
  {| analysis := analysis s;
     isLoading := isLoading s;
     isUploading := isUploading s;
     error := error s;
     uploadSuccess := uploadSuccess s;
     activeDataset := Some default_dataset |}.

(** The states the dashboard can be in. *)
Inductive reachable : State -> Prop :=
| reach_initial : reachable initial
| reach_run s outcome :
    reachable s -> reachable (runAnalysis_settled s outcome)
| reach_upload s outcome :
    reachable s -> reachable (handleFileUpload_settled s outcome)
| reach_clear s :
    reachable s -> reachable (onClearDataset s).




End Dashboard.

Arguments analysis {R} _.
Arguments activeDataset {R} _.
Arguments error {R} _.

End App.

(** ** MultiAnalysisSelector.tsx *)

Module MultiAnalysisSelector.

Record AnalysisOption : Type := {
  value : AnalysisType;
  label : string;
  description : string;
  disabled : option bool;
  disabledReason : option string
}.

Definition ANALYSIS_OPTIONS : list AnalysisOption :=
  [ {| value := aep_monte_carlo;
       label := "AEP (Monte Carlo)";
       description := "Annual Energy Production with uncertainty analysis";
       disabled := None; disabledReason := None |};
    {| value := electrical_losses;
       label := "Electrical Losses";
       description := "Transmission and electrical system losses";
       disabled := None; disabledReason := None |};
    {| value := wake_losses;
       label := "Wake Losses";
       description := "Turbine wake interaction effects";
       disabled := Some true;
       disabledReason := Some "Long-running analysis - use single analysis mode" |};
    {| value := turbine_ideal_energy;
       label := "Turbine Ideal Energy";
       description := "Theoretical maximum energy production";
       disabled := Some true;
       disabledReason := Some "Long-running analysis - use single analysis mode" |};
    {| value := eya_gap_analysis;
       label := "EYA Gap Analysis";
       description := "Compare actual vs expected yield assessment";
       disabled := None; disabledReason := None |} ].

(** Truthiness of the optional [disabled] flag; [option?.disabled] of
    a missing option is [undefined], which is falsy as well. *)
Definition truthy (b : option bool) : bool :=
  match b with Some true => true | _ => false end.

(** A JavaScript [Set<AnalysisType>]: its elements in insertion
    order, each once. *)
Definition TypeSet : Type := list AnalysisType.

Definition set_has (s : TypeSet) (t : AnalysisType) : bool :=
  bool_decide (t ∈ s).

Definition set_add (s : TypeSet) (t : AnalysisType) : TypeSet :=
  if set_has s t then s else (s ++ [t])%list.

Definition set_delete (s : TypeSet) (t : AnalysisType) : TypeSet :=
  List.filter (fun u => negb (bool_decide (u = t))) s.

(** [new Set(array)] *)
Definition set_of (l : list AnalysisType) : TypeSet :=
  fold_left set_add l [].

Definition toggleSelection (selectedTypes : TypeSet) (type : AnalysisType) : TypeSet :=
  let option := List.find (fun opt => bool_decide (value opt = type)) ANALYSIS_OPTIONS in
  if truthy (option ≫= disabled) then selectedTypes
  else
    let newSelection := selectedTypes in
    if set_has newSelection type
    then set_delete newSelection type
    else set_add newSelection type.

Definition selectAll : TypeSet :=
  let enabledOptions :=
    List.map value (List.filter (fun opt => negb (truthy (disabled opt))) ANALYSIS_OPTIONS) in
  set_of enabledOptions.

Definition clearAll : TypeSet := [].

(** [handleRunMultiple]: the argument [onRunMultiple] is invoked
    with, if it is invoked at all. *)
Definition handleRunMultiple (selectedTypes : TypeSet) : option (list AnalysisType) :=
  if (0 <? length selectedTypes)%nat then Some selectedTypes else None.

(** What a user can do to the component. *)
Inductive action : Type :=
| Toggle (type : AnalysisType)
| SelectAll
| ClearAll
| RunSelected.

(** The component's state together with the invocations of
    [onRunMultiple] so far, oldest first. *)
Record State : Type := {
  selectedTypes : TypeSet;
  invocations : list (list AnalysisType)
}.

Definition initial : State := {| selectedTypes := []; invocations := [] |}.

Definition step (s : State) (a : action) : State :=
  match a with
  | Toggle type =>
      {| selectedTypes := toggleSelection (selectedTypes s) type;
         invocations := invocations s |}
  | SelectAll => {| selectedTypes := selectAll; invocations := invocations s |}
  | ClearAll => {| selectedTypes := clearAll; invocations := invocations s |}
  | RunSelected =>
      {| selectedTypes := selectedTypes s;
         invocations := (invocations s ++
           match handleRunMultiple (selectedTypes s) with
           | Some types => [types]
           | None => []
           end)%list |}
  end.

Definition run (actions : list action) : State := fold_left step actions initial.

(** The two long-running types. *)
Definition long_running (t : AnalysisType) : bool :=
  match t with
  | wake_losses | turbine_ideal_energy => true
  | _ => false
  end.

End MultiAnalysisSelector.

(** ** types/api.ts: results and responses *)

Module Types.

Inductive AnalysisStatus : Type := pending | running | completed | failed.

Definition status_name (s : AnalysisStatus) : string :=
  match s with
  | pending => "pending"
  | running => "running"
  | completed => "completed"
  | failed => "failed"
  end.

Section Shapes.
(** The representation of JavaScript numbers is left open: the
    components are run on IEEE doubles ([JsNumber]) and, for
    comparison, on exact rationals ([Exact]). *)
Variable number : Type.

(** A property that is [undefined] (or [null]) is [None]. *)
Record AnalysisResult : Type := {
  analysis_type : string;
  notes : option string;
  raw_columns : option (list string);
  (* AEP Monte Carlo results *)
  aep_gwh : option number;
  uncertainty_pct : option number;
  capacity_factor : option number;
  plant_capacity_mw : option number;
  iterations : option number;
  (* Electrical Losses results *)
  total_loss_pct : option number;
  (* Wake Losses results *)
  wake_loss_pct : option number;
  (* Turbine Ideal Energy results *)
  ideal_energy_gwh : option number;
  (* EYA Gap Analysis results *)
  gap_pct : option number
}.

Record AnalysisResponse : Type := {
  id : string;
  status : AnalysisStatus;
  result : AnalysisResult;
  created_at : option string;
  completed_at : option string;
  error : option string
}.
End Shapes.

Arguments analysis_type {number} _.
Arguments notes {number} _.
Arguments raw_columns {number} _.
Arguments aep_gwh {number} _.
Arguments uncertainty_pct {number} _.
Arguments capacity_factor {number} _.
Arguments plant_capacity_mw {number} _.
Arguments iterations {number} _.
Arguments total_loss_pct {number} _.
Arguments wake_loss_pct {number} _.
Arguments ideal_energy_gwh {number} _.
Arguments gap_pct {number} _.
Arguments id {number} _.
Arguments status {number} _.
Arguments result {number} _.
Arguments created_at {number} _.
Arguments completed_at {number} _.
Arguments error {number} _.

End Types.

(** ** Strings of cells *)

Module Text.

Definition newline : string := String "010"%char EmptyString.
Definition dquote : string := String "034"%char EmptyString.

(** [Array.prototype.join] *)
Fixpoint join (sep : string) (l : list string) : string :=
  match l with
  | [] => EmptyString
  | [x] => x
  | x :: rest => x +:+ sep +:+ join sep rest
  end.

(** [s.startsWith(p)] *)
Fixpoint starts_with (p s : string) : bool :=
  match p with
  | EmptyString => true
  | String a p' =>
      match s with
      | String b s' => Ascii.eqb a b && starts_with p' s'
      | EmptyString => false
      end
  end.

(** [String.prototype.includes] *)
Fixpoint includes (s needle : string) : bool :=
  starts_with needle s
  || match s with
     | String _ rest => includes rest needle
     | EmptyString => false
     end.

(** [String.prototype.toLowerCase], on the ASCII letters. *)
Definition toLowerCase_char (c : ascii) : ascii :=
  if (65 <=? nat_of_ascii c)%nat && (nat_of_ascii c <=? 90)%nat
  then ascii_of_nat (nat_of_ascii c + 32)
  else c.

Fixpoint toLowerCase (s : string) : string :=
  match s with
  | EmptyString => EmptyString
  | String c rest => String (toLowerCase_char c) (toLowerCase rest)
  end.

(** A string is truthy unless it is empty. *)
Definition truthy (o : option string) : bool :=
  match o with
  | Some (String _ _) => true
  | _ => false
  end.

End Text.

(** ** utils/export.ts *)

Module ExportUtils.
Import Types Text.

(** What [downloadFile] is called with. *)
Record Download : Type := {
  content : string;
  filename : string;
  mimeType : string
}.

(** How an export function ends: it returns, having triggered a
    download or not, or [toISOString] throws its [RangeError]. *)
Inductive outcome : Type :=
| Returned (file : option Download)
| RangeError.

Section WithNumber.
Variable number : Type.
(** The literal [0] and [Number.prototype.toString]. *)
Variable zero : number.
Variable toString : number -> string.
(** [new Date(s).toISOString()]: [None] when [s] is not a date,
    in which case the call throws. *)
Variable Date_toISOString : string -> option string.

(** [x ?? 0] *)
Definition or_zero (x : option number) : number :=
  match x with Some v => v | None => zero end.

Definition comparison_headers : list string :=
  ["Analysis ID"; "Type"; "AEP (GWh)"; "Uncertainty (%)"; "Capacity Factor (%)";
   "Iterations"; "Status"; "Created At"].

(** [analysis.created_at ? new Date(analysis.created_at).toISOString() : ''] *)
Definition created_cell (analysis : AnalysisResponse number) : option string :=
  if truthy (created_at analysis)
  then created_at analysis ≫= Date_toISOString
  else Some EmptyString.

(** The arrow function mapped over [analyses]; [None] when it
    throws. *)
Definition comparison_row (analysis : AnalysisResponse number) : option (list string) :=
  created ← created_cell analysis;
  Some [ id analysis;
         analysis_type (result analysis);
         toString (or_zero (aep_gwh (result analysis)));
         toString (or_zero (uncertainty_pct (result analysis)));
         toString (or_zero (capacity_factor (result analysis)));
         toString (or_zero (iterations (result analysis)));
         status_name (status analysis);
         created ].

Definition csv_line (row : list string) : string :=
  join "," (List.map (fun cell => dquote +:+ cell +:+ dquote) row).

(** [exportComparisonToCSV(analyses)], on the day [today]
    ([new Date().toISOString().split('T')[0]]). *)
Definition exportComparisonToCSV (today : string)
    (analyses : list (AnalysisResponse number)) : outcome :=
  if (length analyses =? 0)%nat then Returned None
  else
    match mapM comparison_row analyses with
    | None => RangeError
    | Some rows =>
        let csvContent :=
          join newline (join "," comparison_headers :: List.map csv_line rows) in
        Returned (Some {| content := csvContent;
                          filename := "analysis_comparison_" +:+ today +:+ ".csv";
                          mimeType := "text/csv" |})
    end.

(** [if (x != null) rows.push([name, x.toString(), unit])] *)
Definition metric_row (name unit : string) (x : option number) : list (list string) :=
  match x with
  | Some v => [[name; toString v; unit]]
  | None => []
  end.

(** [if (d) rows.push([name, new Date(d).toISOString(), ''])]; [None]
    when [toISOString] throws. *)
Definition date_row (name : string) (d : option string) : option (list (list string)) :=
  if truthy d
  then iso ← d ≫= Date_toISOString; Some [[name; iso; EmptyString]]
  else Some [].

(** The [rows] of [exportToCSV]; [None] when building them throws. *)
Definition exportToCSV_rows (analysis : AnalysisResponse number)
  : option (list (list string)) :=
  let r := result analysis in
  created ← date_row "Created At" (created_at analysis);
  completed ← date_row "Completed At" (completed_at analysis);
  Some (metric_row "AEP" "GWh" (aep_gwh r)
        ++ metric_row "Uncertainty" "%" (uncertainty_pct r)
        ++ metric_row "Capacity Factor" "%" (capacity_factor r)
        ++ metric_row "Plant Capacity" "MW" (plant_capacity_mw r)
        ++ metric_row "Iterations" "count" (iterations r)
        ++ [ ["Analysis Type"; analysis_type r; EmptyString];
             [EmptyString; EmptyString; EmptyString];
             ["Analysis ID"; id analysis; EmptyString];
             ["Status"; status_name (status analysis); EmptyString] ]
        ++ created
        ++ completed
        ++ (if truthy (notes r)
            then [["Notes"; default EmptyString (notes r); EmptyString]]
            else []))%list.

(** [exportToCSV(analysis)] *)
Definition exportToCSV (analysis : AnalysisResponse number) : outcome :=
  match exportToCSV_rows analysis with
  | None => RangeError
  | Some rows =>
      let headers := ["Metric"; "Value"; "Unit"] in
      let csvContent := join newline (join "," headers :: List.map csv_line rows) in
      Returned (Some {| content := csvContent;
                        filename := "analysis_" +:+ id analysis +:+ ".csv";
                        mimeType := "text/csv" |})
  end.

End WithNumber.

End ExportUtils.

(** ** ComparisonView.tsx *)

Module ComparisonView.
Import Types.

(** The keys of the [metrics] table. *)
Inductive MetricKey : Type :=
| key_aep_gwh
| key_uncertainty_pct
| key_capacity_factor
| key_plant_capacity_mw.

Record Metric : Type := {
  key : MetricKey;
  label : string;
  (** [format: (v) => v.toFixed(digits)] *)
  digits : nat
}.

Definition metrics : list Metric :=
  [ {| key := key_aep_gwh; label := "AEP (GWh)"; digits := 2 |};
    {| key := key_uncertainty_pct; label := "Uncertainty (%)"; digits := 2 |};
    {| key := key_capacity_factor; label := "Capacity Factor (%)"; digits := 1 |};
    {| key := key_plant_capacity_mw; label := "Capacity (MW)"; digits := 1 |} ].

Section WithNumber.
Variable number : Type.
Variable zero : number.
Variables add sub div : number -> number -> number.
(** [Math.min] and [Math.max] of two numbers. *)
Variables Math_min Math_max : number -> number -> number.
(** [values.length] as a number. *)
Variable of_nat : nat -> number.
Variable toFixed : nat -> number -> string.

(** [a.result[metric.key]] *)
Definition result_at (k : MetricKey) (r : AnalysisResult number) : option number :=
  match k with
  | key_aep_gwh => aep_gwh r
  | key_uncertainty_pct => uncertainty_pct r
  | key_capacity_factor => capacity_factor r
  | key_plant_capacity_mw => plant_capacity_mw r
  end.

(** [analyses.map(a => a.result[key]).filter(v => typeof v === 'number')] *)
Definition metric_values (k : MetricKey) (analyses : list (AnalysisResponse number))
  : list number :=
  omap (fun a => result_at k (result a)) analyses.

(** The numbers behind a summary card. *)
Record Stats : Type := {
  avg : number;
  min : number;
  max : number;
  range : number
}.

(** [Math.min(...values)] and [Math.max(...values)] of a list that
    is not empty. *)
Definition min_of (v : number) (rest : list number) : number := fold_left Math_min rest v.
Definition max_of (v : number) (rest : list number) : number := fold_left Math_max rest v.

Definition stats (values : list number) : option Stats :=
  match values with
  | [] => None
  | v :: rest =>
      let avg := div (fold_left add values zero) (of_nat (length values)) in
      let min := min_of v rest in
      let max := max_of v rest in
      let range := sub max min in
      Some {| avg := avg; min := min; max := max; range := range |}
  end.

(** What a card shows. *)
Record SummaryCard : Type := {
  card_label : string;
  shown_average : string;
  shown_range : string;
  shown_min : string;
  shown_max : string
}.

Definition summary_card (metric : Metric) (analyses : list (AnalysisResponse number))
  : option SummaryCard :=
  st ← stats (metric_values (key metric) analyses);
  let format := toFixed (digits metric) in
  Some {| card_label := label metric;
          shown_average := format (avg st);
          shown_range := format (range st);
          shown_min := format (min st);
          shown_max := format (max st) |}.

(** The summary grid: one entry per metric of [metrics.slice(0, 2)],
    [None] where the component renders nothing. The component
    itself renders nothing at all for an empty list. *)
Definition summary (analyses : list (AnalysisResponse number))
  : option (list (option SummaryCard)) :=
  if (length analyses =? 0)%nat then None
  else Some (List.map (fun metric => summary_card metric analyses) (firstn 2 metrics)).

End WithNumber.

Arguments avg {number} _.
Arguments min {number} _.
Arguments max {number} _.
Arguments range {number} _.

End ComparisonView.

(** ** ResultPanel.tsx *)

Module ResultPanel.
Import Types.

Record MetricEntry : Type := {
  label : string;
  value : string
}.

Section WithNumber.
Variable number : Type.
Variable toFixed : nat -> number -> string.

(** [if (x != null) metrics.push(entry(x))] *)
Definition push_present (x : option number) (entry : number -> MetricEntry)
    (metrics : list MetricEntry) : list MetricEntry :=
  match x with
  | Some v => (metrics ++ [entry v])%list
  | None => metrics
  end.

(** The [metrics] array the panel builds from the result. *)
Definition metrics (result : AnalysisResult number) : list MetricEntry :=
  let m := [] in
  let m := push_present (aep_gwh result)
             (fun v => {| label := "Net AEP"; value := toFixed 2 v +:+ " GWh" |}) m in
  let m := push_present (ideal_energy_gwh result)
             (fun v => {| label := "Ideal Energy"; value := toFixed 2 v +:+ " GWh" |}) m in
  let m := push_present (total_loss_pct result)
             (fun v => {| label := "Electrical Losses"; value := toFixed 2 v +:+ " %" |}) m in
  let m := push_present (wake_loss_pct result)
             (fun v => {| label := "Wake Losses"; value := toFixed 2 v +:+ " %" |}) m in
  let m := push_present (gap_pct result)
             (fun v => {| label := "Gap"; value := toFixed 2 v +:+ " %" |}) m in
  let m := push_present (uncertainty_pct result)
             (fun v => {| label := "Uncertainty"; value := toFixed 2 v +:+ " %" |}) m in
  let m := push_present (capacity_factor result)
             (fun v => {| label := "Capacity Factor"; value := toFixed 1 v +:+ " %" |}) m in
  let m := push_present (plant_capacity_mw result)
             (fun v => {| label := "Plant Capacity"; value := toFixed 1 v +:+ " MW" |}) m in
  m.

(** [getTitle()] *)
Definition getTitle (result : AnalysisResult number) : string :=
  let type := Text.toLowerCase (analysis_type result) in
  if Text.includes type "aep" then "AEP Results"
  else if Text.includes type "electrical" then "Electrical Losses Results"
  else if Text.includes type "wake" then "Wake Losses Results"
  else if Text.includes type "turbine" then "Turbine Ideal Energy Results"
  else if Text.includes type "eya" || Text.includes type "gap"
       then "EYA Gap Analysis Results"
  else "Analysis Results".

End WithNumber.

End ResultPanel.

(** The earlier variant of the panel. It goes with the earlier
    [AnalysisResult] of [types/api.ts], in which the four metrics it
    shows are required properties, and with the earlier [App], which
    only ever runs the AEP analysis. *)
Module ResultPanelV1.

Section WithNumber.
Variable number : Type.
Variable toFixed : nat -> number -> string.

Record AnalysisResult : Type := {
  aep_gwh : number;
  uncertainty_pct : number;
  capacity_factor : number;
  plant_capacity_mw : number;
  analysis_type : string;
  iterations : number;
  notes : option string;
  raw_columns : option (list string)
}.

Definition metrics (result : AnalysisResult) : list ResultPanel.MetricEntry :=
  [ {| ResultPanel.label := "Net AEP";
       ResultPanel.value := toFixed 2 (aep_gwh result) +:+ " GWh" |};
    {| ResultPanel.label := "Uncertainty";
       ResultPanel.value := toFixed 2 (uncertainty_pct result) +:+ " %" |};
    {| ResultPanel.label := "Capacity Factor";
       ResultPanel.value := toFixed 1 (capacity_factor result) +:+ " %" |};
    {| ResultPanel.label := "Plant Capacity";
       ResultPanel.value := toFixed 1 (plant_capacity_mw result) +:+ " MW" |} ].

End WithNumber.

End ResultPanelV1.

(** ** utils/chartTransforms.ts: the bar chart of a result *)

Module ChartTransforms.
Import Types.

Record BarChartDataPoint (number : Type) : Type := {
  category : string;
  value : number;
  color : string
}.
Arguments category {number} _.
Arguments value {number} _.
Arguments color {number} _.

Section WithNumber.
Variable number : Type.
Variable toFixed : nat -> number -> string.
Variable Math_abs : number -> number.
(** [x < 0] *)
Variable negative : number -> bool.

(** [if (x != null) metrics.push(bar(x))] *)
Definition push_present (x : option number) (bar : number -> BarChartDataPoint number)
    (metrics : list (BarChartDataPoint number)) : list (BarChartDataPoint number) :=
  match x with
  | Some v => (metrics ++ [bar v])%list
  | None => metrics
  end.

(** The [metrics] of [transformAnalysisToChartData]. *)
Definition transformAnalysisToChartData_metrics (analysis : AnalysisResult number) : list (BarChartDataPoint number) :=
  let m := [] in
  let m := push_present (aep_gwh analysis)
             (fun v => {| category := "AEP" +:+ Text.newline +:+ toFixed 1 v +:+ " GWh";
                          value := v; color := "#0ea5e9" |}) m in
  let m := push_present (ideal_energy_gwh analysis)
             (fun v => {| category := "Ideal Energy" +:+ Text.newline +:+ toFixed 1 v +:+ " GWh";
                          value := v; color := "#0ea5e9" |}) m in
  let m := push_present (total_loss_pct analysis)
             (fun v => {| category := "Elec. Losses" +:+ Text.newline +:+ toFixed 1 v +:+ "%";
                          value := v; color := "#ef4444" |}) m in
  let m := push_present (wake_loss_pct analysis)
             (fun v => {| category := "Wake Losses" +:+ Text.newline +:+ toFixed 1 v +:+ "%";
                          value := v; color := "#f97316" |}) m in
  let m := push_present (gap_pct analysis)
             (fun v => {| category := "Gap" +:+ Text.newline +:+ toFixed 1 v +:+ "%";
                          value := Math_abs v;
                          color := if negative v then "#ef4444" else "#10b981" |}) m in
  let m := push_present (uncertainty_pct analysis)
             (fun v => {| category := "Uncertainty" +:+ Text.newline +:+ toFixed 1 v +:+ "%";
                          value := v; color := "#f59e0b" |}) m in
  let m := push_present (capacity_factor analysis)
             (fun v => {| category := "Capacity Factor" +:+ Text.newline +:+ toFixed 1 v +:+ "%";
                          value := v; color := "#10b981" |}) m in
  let m := push_present (plant_capacity_mw analysis)
             (fun v => {| category := "Plant Cap." +:+ Text.newline +:+ toFixed 1 v +:+ " MW";
                          value := v; color := "#8b5cf6" |}) m in
  m.

End WithNumber.

End ChartTransforms.

(** ** The Analysis Dispatcher's result bag *)

Module Dispatcher.
Import Types.

(** The type-specific properties of the result bag. *)
Inductive Field : Type :=
| f_aep_gwh
| f_uncertainty_pct
| f_total_loss_pct
| f_wake_loss_pct
| f_ideal_energy_gwh
| f_gap_pct.

Section WithNumber.
Variable number : Type.





(** Reading a type-specific property of a bag. *)
Definition field (f : Field) (r : AnalysisResult number) : option number :=
  match f with
  | f_aep_gwh => aep_gwh r
  | f_uncertainty_pct => uncertainty_pct r
  | f_total_loss_pct => total_loss_pct r
  | f_wake_loss_pct => wake_loss_pct r
  | f_ideal_energy_gwh => ideal_energy_gwh r
  | f_gap_pct => gap_pct r
  end.

End WithNumber.




End Dispatcher.

(** ** The two number systems *)

(** IEEE 754 binary64, which is what a JavaScript number is. *)
Module JsNumber.

Import PrimFloat.

Definition number : Type := float.

(** [Math.min(x, y)]: NaN if either is NaN, and -0 below +0. *)
Definition Math_min (x y : float) : float :=
  if is_nan x || is_nan y then nan
  else if ltb x y then x
  else if ltb y x then y
  else if get_sign x then x else y.

Definition Math_max (x y : float) : float :=
  if is_nan x || is_nan y then nan
  else if ltb x y then y
  else if ltb y x then x
  else if get_sign x then y else x.

Definition of_nat (n : nat) : float := of_uint63 (Uint63.of_Z (Z.of_nat n)).

Definition stats : list float -> option (ComparisonView.Stats float) :=
  ComparisonView.stats float zero add sub div Math_min Math_max of_nat.

(** The double nearest to 0.1, which is what the JSON number [0.1]
    is read as. *)
Definition one_tenth : float := 0x1.999999999999ap-4%float.

End JsNumber.

(** Exact rational arithmetic. *)
Module Exact.

Definition number : Type := Q.

Definition of_nat (n : nat) : Q := inject_Z (Z.of_nat n).

Definition stats : list Q -> option (ComparisonView.Stats Q) :=
  ComparisonView.stats Q 0%Q Qplus Qminus Qdiv Qmin Qmax of_nat.

End Exact.

(** ** DatasetSelector.tsx *)

Module DatasetSelector.



End DatasetSelector.

(** ** FileUpload.tsx *)

Module FileUpload.

Record State : Type := {
  isDragging : bool;
  selectedFile : option Api.File
}.

Definition initial : State := {| isDragging := false; selectedFile := None |}.

(** What can happen to the component: the drag events, a drop of
    files, a change of the file input ([None]: its [files] is null), and
    the two buttons. *)
Inductive event : Type :=
| DragEnter
| DragLeave
| DragOver
| Drop (files : list Api.File)
| FileInputChange (files : option (list Api.File))
| Upload
| Remove.

Definition handleFileSelect (s : State) (file : Api.File) : State :=
  {| isDragging := isDragging s; selectedFile := Some file |}.

Definition handleDrop (s : State) (files : list Api.File) : State :=
  let s := {| isDragging := false; selectedFile := selectedFile s |} in
  match files with
  | file :: _ => handleFileSelect s file
  | [] => s
  end.

Definition handleFileInputChange (s : State) (files : option (list Api.File)) : State :=
  match files with
  | Some (file :: _) => handleFileSelect s file
  | _ => s
  end.

(** [handleUpload]: what [onFileUpload] is invoked with, if at all. *)
Definition handleUpload (s : State) : option Api.File := selectedFile s.

Definition handleRemove (s : State) : State :=
  {| isDragging := isDragging s; selectedFile := None |}.

(** One event: the next state and the invocations of [onFileUpload]
    it makes. *)
Definition step (s : State) (e : event) : State * list Api.File :=
  match e with
  | DragEnter => ({| isDragging := true; selectedFile := selectedFile s |}, [])
  | DragLeave => ({| isDragging := false; selectedFile := selectedFile s |}, [])
  | DragOver => (s, [])
  | Drop files => (handleDrop s files, [])
  | FileInputChange files => (handleFileInputChange s files, [])
  | Upload => (s, match handleUpload s with Some file => [file] | None => [] end)
  | Remove => (handleRemove s, [])
  end.

(** A run of events from a state: the final state and all the
    invocations of [onFileUpload], oldest first. *)
Fixpoint run_from (s : State) (events : list event) : State * list Api.File :=
  match events with
  | [] => (s, [])
  | e :: rest =>
      let '(s', calls) := step s e in
      let '(s'', calls') := run_from s' rest in
      (s'', (calls ++ calls')%list)
  end.

Definition run (events : list event) : State * list Api.File := run_from initial events.

(** The first file an event offers, if it offers one. *)
Definition offered (e : event) : option Api.File :=
  match e with
  | Drop (file :: _) => Some file
  | FileInputChange (Some (file :: _)) => Some file
  | _ => None
  end.

End FileUpload.

(** ** utils/chartTransforms.ts: the capacity breakdown, on doubles *)

Module ChartBreakdown.
Import PrimFloat.

Record PieChartDataPoint : Type := {
  id : string;
  label : string;
  value : float;
  color : string
}.

(** The [breakdown] of [transformAnalysisToChartData], before the
    filter. *)
Definition slices (analysis : Types.AnalysisResult float) : list PieChartDataPoint :=
  let capacityFactor := default 35%float (Types.capacity_factor analysis) in
  let estimatedLosses := 8%float in
  let estimatedCurtailment := 2%float in
  let unavailability := 5%float in
  let windAvailability :=
    JsNumber.Math_max 0%float
      (100 - capacityFactor - estimatedLosses - estimatedCurtailment - unavailability)%float in
  [ {| id := "production"; label := "Net Production";
       value := capacityFactor; color := "#10b981" |};
    {| id := "losses"; label := "Electrical Losses";
       value := estimatedLosses; color := "#ef4444" |};
    {| id := "curtailment"; label := "Curtailment";
       value := estimatedCurtailment; color := "#f59e0b" |};
    {| id := "unavailable"; label := "Unavailability";
       value := unavailability; color := "#64748b" |};
    {| id := "wind"; label := "Low Wind";
       value := windAvailability; color := "#cbd5e1" |} ].

(** [breakdown.filter((d) => d.value > 0.1)] *)
Definition breakdown (analysis : Types.AnalysisResult float) : list PieChartDataPoint :=
  List.filter (fun d => ltb JsNumber.one_tenth (value d)) (slices analysis).

End ChartBreakdown.

(** ** The Column Mapper *)

Module ColumnMapper.

Definition is_upper (c : ascii) : bool :=
  (65 <=? nat_of_ascii c)%nat && (nat_of_ascii c <=? 90)%nat.

Definition lower_char (c : ascii) : ascii :=
  if is_upper c then ascii_of_nat (nat_of_ascii c + 32) else c.

(** Modelled from the spec: the case folding behind "case-insensitive
    exact match", which is backend code; here lower-casing of the ASCII
    letters. *)
Fixpoint lower (s : string) : string :=
  match s with
  | EmptyString => EmptyString
  | String c rest => String (lower_char c) (lower rest)
  end.

(** Modelled from the spec: "case-insensitive exact match" of two
    names, which is backend code. *)
Definition same_header (a b : string) : bool := String.eqb (lower a) (lower b).

(** Modelled from the spec: the "configurable alias table" of the
    backend, a list of (source header, canonical field). *)
Definition AliasTable : Type := list (string * string).

(** Modelled from the spec: the "target canonical schema (a fixed
    list of required and optional field names)" of the backend. *)
Record Schema : Type := {
  required : list string;
  optional : list string
}.

Definition canonical_fields (S : Schema) : list string :=
  (required S ++ optional S)%list.

(** Modelled from the spec: the backend mapper's lookup of a header in
    the alias table. *)
Definition alias_of (A : AliasTable) (h : string) : option string :=
  snd <$> List.find (fun entry => same_header (fst entry) h) A.

(** Modelled from the spec: the backend mapper's match of a header
    against the canonical names. *)
Definition canonical_of (S : Schema) (h : string) : option string :=
  List.find (fun field => same_header field h) (canonical_fields S).

(** Modelled from the spec: the Column Mapper of the backend, whose
    code is not among the sources. "Given a sequence of raw header
    strings and a target canonical schema ..., produce a mapping from
    raw header to canonical field, using case-insensitive exact match
    against a configurable alias table. Headers with no alias entry
    and no case-insensitive exact match to a canonical name are left
    unmapped and surfaced as extra columns; canonical required fields
    with no match produce a validation error naming the missing
    field." [map_header] is the canonical field of one header. *)
Definition map_header (A : AliasTable) (S : Schema) (h : string) : option string :=
  match alias_of A h with
  | Some field => Some field
  | None => canonical_of S h
  end.

(** Modelled from the spec: the [ColumnMapping] the backend's mapper
    produces, the "ordered list of (source header -> canonical field)
    pairs". *)
Definition Map (A : AliasTable) (S : Schema) (H : list string) : list (string * string) :=
  omap (fun h => pair h <$> map_header A S h) H.

(** Modelled from the spec: the headers the backend's mapper leaves
    unmapped, "surfaced as extra columns". *)
Definition extra_columns (A : AliasTable) (S : Schema) (H : list string) : list string :=
  List.filter (fun h => negb (bool_decide (is_Some (map_header A S h)))) H.

(** Modelled from the spec: the required fields of the schema that no
    header is mapped to, each of which the backend's mapper reports as
    a validation error. *)
Definition missing_required (A : AliasTable) (S : Schema) (H : list string) : list string :=
  List.filter
    (fun field => negb (existsb (String.eqb field) (List.map snd (Map A S H))))
    (required S).

(** Modelled from the spec: the backend's renaming of the headers
    ("it only renames headers"): a mapped header becomes its canonical
    field, an extra column keeps its name. *)
Definition renamed (A : AliasTable) (S : Schema) (H : list string) : list string :=
  List.map (fun h => default h (map_header A S h)) H.

(** The alias table of the La Haute Borne dataset, as the deployment
    plan records it: Date_time to time, P_avg to WTUR_W, Ws_avg to
    WMET_HorWdSpd. *)
Definition la_haute_borne_aliases : AliasTable :=
  [ ("Date_time", "time"); ("P_avg", "WTUR_W"); ("Ws_avg", "WMET_HorWdSpd") ].

(** Modelled from the spec: the target schema of the backend for this
    dataset; the spec does not list its fields, so the canonical
    fields the aliases map onto are taken as the required ones. *)
Definition scada_schema : Schema :=
  {| required := ["time"; "WTUR_W"; "WMET_HorWdSpd"]; optional := [] |}.

End ColumnMapper.

(** ** CSV text *)

Module Csv.

(** Modelled from the spec: the splitting of text the backend's CSV
    parsing rests on. [split_on sep s] is the pieces of [s] between the
    occurrences of [sep]; there is always at least one piece. *)
Fixpoint split_on (sep : ascii) (s : string) : list string :=
  match s with
  | EmptyString => [EmptyString]
  | String c rest =>
      if Ascii.eqb c sep then EmptyString :: split_on sep rest
      else match split_on sep rest with
           | piece :: pieces => String c piece :: pieces
           | [] => [String c EmptyString]
           end
  end.

Definition nonempty (s : string) : bool :=
  match s with EmptyString => false | _ => true end.

(** Modelled from the spec: the lines of an uploaded text as the
    backend's CSV parsing sees them, blank ones left out. *)
Definition lines (text : string) : list string :=
  List.filter nonempty (split_on "010"%char text).

(** Modelled from the spec: the parsing step of the registry's [put]
    ("parses format"), for CSV: the first line is the header, every
    further line a row; a text without a header line is
    unparseable. *)
Definition parse (text : string) : option (list string * list (list string)) :=
  match lines text with
  | [] => None
  | header :: data => Some (split_on "," header, List.map (split_on ",") data)
  end.

End Csv.

(** ** The Dataset Registry *)

Module DatasetRegistry.

(** Modelled from the spec: the [Dataset] of the backend's registry,
    "{ id, filename, row_count, columns, created_at, expires_at,
    is_default }". Times are seconds. *)
Record Dataset : Type := {
  id : string;
  filename : string;
  row_count : nat;
  columns : list string;
  created_at : Z;
  expires_at : Z;
  is_default : bool
}.

(** Modelled from the spec: what the backend's registry keeps under
    an id, the metadata and the "parsed table". *)
Record Stored : Type := {
  meta : Dataset;
  rows : list (list string)
}.

(** Modelled from the spec: the error taxonomy of the backend, as far
    as the registry raises it. *)
Inductive error : Type :=
| InvalidFormat
| TooLarge
| MissingRequiredColumn (field : string)
| DatasetNotFound (id : string).

(** Modelled from the spec: the "fixed sentinel value" that is the id
    of the default dataset in the backend; [default], as the dashboard
    and the dataset listing have it. *)
Definition DEFAULT_ID : string := "default".
(** Modelled from the spec: the backend's "24h retention", in
    seconds. *)
Definition RETENTION : Z := 24 * 3600.
(** Modelled from the spec: the backend's "size ceiling (50MB)". *)
Definition MAX_UPLOAD_BYTES : Z := 50 * 1024 * 1024.

Section WithMapper.
Variable A : ColumnMapper.AliasTable.
Variable S : ColumnMapper.Schema.

(** Modelled from the spec: [put(bytes, filename) -> Dataset] of
    the backend's registry ("parses format, applies Column Mapper,
    stores parsed table, returns id + metadata"; too large a file
    and an unparseable one are "rejected before registry
    insertion"; a required field without a match is a validation
    error naming it). The clock and the freshly generated id are
    arguments. *)
Definition put (now : Z) (new_id : string) (bytes filename : string)
    (reg : gmap string Stored) : error + (Dataset * gmap string Stored) :=
  if (MAX_UPLOAD_BYTES <? Z.of_nat (String.length bytes))%Z then inl TooLarge
  else
    match Csv.parse bytes with
    | None => inl InvalidFormat
    | Some (header, data) =>
        match ColumnMapper.missing_required A S header with
        | field :: _ => inl (MissingRequiredColumn field)
        | [] =>
            let d := {| id := new_id;
                        filename := filename;
                        row_count := length data;
                        columns := ColumnMapper.renamed A S header;
                        created_at := now;
                        expires_at := (now + RETENTION)%Z;
                        is_default := false |} in
            inr (d, <[new_id := {| meta := d; rows := data |}]> reg)
        end
    end.
End WithMapper.

(** Modelled from the spec: [get(id)], which answers [NotFound] for
    an id the registry does not hold. (The bundle is built from the
    stored dataset by the Plant Data Builder, which is not modelled:
    [get] hands back what is stored.) *)
Definition get (reg : gmap string Stored) (id : string) : error + Stored :=
  match reg !! id with
  | Some d => inr d
  | None => inl (DatasetNotFound id)
  end.

(** Modelled from the spec: the test of the backend's cleanup, that a
    dataset's [expires_at] has passed. *)
Definition past (now : Z) (d : Dataset) : bool := (expires_at d <? now)%Z.

(** Modelled from the spec: [delete_expired()], which "purge[s]
    datasets whose [expires_at] has passed"; the default dataset is
    "immutable and permanent" and is kept. *)
Definition delete_expired (now : Z) (reg : gmap string Stored) : gmap string Stored :=
  filter (fun kv => is_default (meta (snd kv)) = true \/ past now (meta (snd kv)) = false) reg.

(** Modelled from the spec: the registry at startup, "pre-populated
    once at startup for the bundled sample". *)
Definition startup (now : Z) (sample : Stored) : gmap string Stored :=
  {[ DEFAULT_ID :=
       {| meta := {| id := DEFAULT_ID;
                     filename := filename (meta sample);
                     row_count := row_count (meta sample);
                     columns := columns (meta sample);
                     created_at := now;
                     expires_at := expires_at (meta sample);
                     is_default := true |};
          rows := rows sample |} ]}.

(** Modelled from the spec: the registries the backend can hold, the
    one of startup and what uploads and cleanups make of it. An upload
    is stored under a freshly generated id ("ids generated randomly
    ... to avoid collision"). *)
Inductive reachable (A : ColumnMapper.AliasTable) (S : ColumnMapper.Schema)
  : gmap string Stored -> Prop :=
| reach_startup now sample : reachable A S (startup now sample)
| reach_put reg now new_id bytes filename d reg' :
    reachable A S reg ->
    reg !! new_id = None ->
    put A S now new_id bytes filename reg = inr (d, reg') ->
    reachable A S reg'
| reach_cleanup reg now :
    reachable A S reg -> reachable A S (delete_expired now reg).

End DatasetRegistry.

(** ** Stand-ins for the platform, used to run the code on examples *)

Module Platform.

(** [Number.prototype.toString] on integers. *)
Definition Z_toString (n : Z) : string := NilZero.string_of_int (Z.to_int n).

Definition is_digit (c : ascii) : bool :=
  (48 <=? nat_of_ascii c)%nat && (nat_of_ascii c <=? 57)%nat.

(** [matches pattern s]: [s] has the shape of [pattern], where a [d]
    in the pattern stands for any digit. *)
Fixpoint matches (pattern s : string) : bool :=
  match pattern, s with
  | EmptyString, EmptyString => true
  | String p pattern', String c s' =>
      (if Ascii.eqb p "d" then is_digit c else Ascii.eqb p c) && matches pattern' s'
  | _, _ => false
  end.

(** [new Date(s).toISOString()] on timestamps written as
    [YYYY-MM-DDTHH:MM:SSZ]; any other string is taken not to be a
    date. *)
Definition utc_toISOString (s : string) : option string :=
  if matches "dddd-dd-ddTdd:dd:ddZ" s
  then Some (substring 0 19 s +:+ ".000Z")
  else None.

End Platform.


(** ** The vocabulary of the statements *)

(** A selection holding no long-running type. *)
Definition short_only (sel : list AnalysisType) : Prop :=
  Forall (fun t => MultiAnalysisSelector.long_running t = false) sel.

(** The invariant of the selector: neither the selection nor any past
    invocation holds a long-running type. *)
Definition safe (s : MultiAnalysisSelector.State) : Prop :=
  short_only (MultiAnalysisSelector.selectedTypes s)
  /\ Forall short_only (MultiAnalysisSelector.invocations s).

(** What the export is to write for a metric: its rendering, or ["0"]
    when it is absent. *)
Definition written {number : Type} (toString : number -> string) (x : option number)
  : string :=
  match x with Some v => toString v | None => "0" end.

(** The cells of the row of one analysis, given its rendered creation
    time. *)
Definition expected_row {number : Type} (toString : number -> string)
    (a : Types.AnalysisResponse number) (created : string) : list string :=
  [ Types.id a; Types.analysis_type (Types.result a);
    written toString (Types.aep_gwh (Types.result a));
    written toString (Types.uncertainty_pct (Types.result a));
    written toString (Types.capacity_factor (Types.result a));
    written toString (Types.iterations (Types.result a));
    Types.status_name (Types.status a); created ].

(** The creation times can all be rendered. *)
Definition dates_ok {number : Type} (Date_toISOString : string -> option string)
    (analyses : list (Types.AnalysisResponse number)) : Prop :=
  Forall (fun a => Text.truthy (Types.created_at a) = true ->
                   is_Some (Types.created_at a ≫= Date_toISOString)) analyses.


(** Two headers that differ in letter case only. *)
Definition case_variant (h h' : string) : Prop :=
  ColumnMapper.lower h = ColumnMapper.lower h'.

(** Changing the case of a letter, and of the letters of a header that
    a mask picks out. *)
Definition is_lower (c : ascii) : bool :=
  (97 <=? nat_of_ascii c)%nat && (nat_of_ascii c <=? 122)%nat.

Definition swap_case (c : ascii) : ascii :=
  if ColumnMapper.is_upper c then ascii_of_nat (nat_of_ascii c + 32)
  else if is_lower c then ascii_of_nat (nat_of_ascii c - 32)
  else c.

Fixpoint recase (mask : list bool) (h : string) : string :=
  match h, mask with
  | String c rest, true :: mask' => String (swap_case c) (recase mask' rest)
  | String c rest, false :: mask' => String c (recase mask' rest)
  | _, _ => h
  end.

(** The invariant of the registry: the default dataset is there,
    flagged as such, and it is the only one that is. *)
Definition default_kept (reg : gmap string DatasetRegistry.Stored) : Prop :=
  (exists d, reg !! DatasetRegistry.DEFAULT_ID = Some d
             /\ DatasetRegistry.is_default (DatasetRegistry.meta d) = true)
  /\ forall id d, reg !! id = Some d -> id <> DatasetRegistry.DEFAULT_ID ->
       DatasetRegistry.is_default (DatasetRegistry.meta d) = false.

(** A string in which a character does not occur. *)
Fixpoint free_of (c : ascii) (s : string) : bool :=
  match s with
  | EmptyString => true
  | String d rest => negb (Ascii.eqb d c) && free_of c rest
  end.

(** A line of data: not blank, and without a line break in it. *)
Definition data_line (l : string) : Prop :=
  Csv.nonempty l = true /\ free_of "010"%char l = true.

(** The text of a CSV, header line first. *)
Definition csv_text (header : string) (data : list string) : string :=
  Text.join Text.newline (header :: data).

(** ** Examples *)

(** What [put] answers for a CSV with the header line of scenario A. *)
Definition scenario_A_dataset (now : Z) (new_id filename : string) (data : list string)
  : DatasetRegistry.Dataset :=
  {| DatasetRegistry.id := new_id;
     DatasetRegistry.filename := filename;
     DatasetRegistry.row_count := length data;
     DatasetRegistry.columns := ["time"; "WTUR_W"; "WMET_HorWdSpd"];
     DatasetRegistry.created_at := now;
     DatasetRegistry.expires_at := (now + DatasetRegistry.RETENTION)%Z;
     DatasetRegistry.is_default := false |}.

(** Two ten-minute records of a turbine. *)
Definition two_records : list string :=
  ["2014-01-01 00:00,412.5,6.1"; "2014-01-01 00:10,388.0,5.9"].

(** The bundled sample, and the registry after one upload made at
    time 1000. *)
Definition bundled_sample : DatasetRegistry.Stored :=
  {| DatasetRegistry.meta :=
       scenario_A_dataset 0 "sample" "la-haute-borne-data-2014-2015.csv" two_records;
     DatasetRegistry.rows := List.map (Csv.split_on ",") two_records |}.

Definition old_upload : DatasetRegistry.Stored :=
  {| DatasetRegistry.meta := scenario_A_dataset 1000 "3f2b8c1e" "scada.csv" two_records;
     DatasetRegistry.rows := List.map (Csv.split_on ",") two_records |}.

Definition registry_after_upload : gmap string DatasetRegistry.Stored :=
  <["3f2b8c1e" := old_upload]> (DatasetRegistry.startup 0 bundled_sample).

(** A network that answers every call with a 404 and a plain-text
    body. *)
Definition not_found_network : Api.HttpRequest -> Js.Promise (Api.Response unit) :=
  fun _ => Js.Resolved
    {| Api.ok := false; Api.status := 404;
       Api.text := "Not Found"; Api.json := None |}.


(** Two analyses: an AEP run and an electrical-losses run, which has
    none of the four exported metrics. *)
Definition aep_run : Types.AnalysisResponse Z :=
  {| Types.id := "run-1"; Types.status := Types.completed;
     Types.result :=
       {| Types.analysis_type := "aep_monte_carlo"; Types.notes := None;
          Types.raw_columns := None;
          Types.aep_gwh := Some 32; Types.uncertainty_pct := Some 0;
          Types.capacity_factor := Some 35; Types.plant_capacity_mw := Some 8;
          Types.iterations := Some 1000;
          Types.total_loss_pct := None; Types.wake_loss_pct := None;
          Types.ideal_energy_gwh := None; Types.gap_pct := None |};
     Types.created_at := Some "2025-01-15T10:30:00Z";
     Types.completed_at := None; Types.error := None |}.

Definition losses_run (created : option string) : Types.AnalysisResponse Z :=
  {| Types.id := "run-2"; Types.status := Types.completed;
     Types.result :=
       {| Types.analysis_type := "electrical_losses"; Types.notes := None;
          Types.raw_columns := None;
          Types.aep_gwh := None; Types.uncertainty_pct := None;
          Types.capacity_factor := None; Types.plant_capacity_mw := None;
          Types.iterations := None;
          Types.total_loss_pct := Some 2; Types.wake_loss_pct := None;
          Types.ideal_energy_gwh := None; Types.gap_pct := None |};
     Types.created_at := created;
     Types.completed_at := None; Types.error := None |}.

(** An AEP run with a given energy, as a double. *)
Definition aep_of (v : PrimFloat.float) : Types.AnalysisResponse PrimFloat.float :=
  {| Types.id := "run"; Types.status := Types.completed;
     Types.result :=
       {| Types.analysis_type := "aep_monte_carlo"; Types.notes := None;
          Types.raw_columns := None;
          Types.aep_gwh := Some v; Types.uncertainty_pct := None;
          Types.capacity_factor := None; Types.plant_capacity_mw := None;
          Types.iterations := None;
          Types.total_loss_pct := None; Types.wake_loss_pct := None;
          Types.ideal_energy_gwh := None; Types.gap_pct := None |};
     Types.created_at := None; Types.completed_at := None; Types.error := None |}.

(** ** Further examples *)

Definition sample_file : Api.File :=
  {| Api.file_name := "scada.csv";
     Api.file_content := "time,WTUR_W,WMET_HorWdSpd" |}.

(** A server that refuses every upload with a 413 and an empty
    body. *)
Definition payload_too_large_network
  : Api.HttpRequest -> Js.Promise (Api.Response App.UploadResponse) :=
  fun _ => Js.Resolved
    {| Api.ok := false; Api.status := 413; Api.text := ""; Api.json := None |}.


(** The [file_id] argument as a property value. *)
Definition file_id_value (file_id : option string) : Js.value :=
  match file_id with Some f => Js.Str f | None => Js.Undefined end.

(** ** Vocabulary of the further properties *)

(** A timestamp that is there and is not a date: rendering it with
    [toISOString] throws. *)
Definition invalid_date (Date_toISOString : string -> option string)
    (d : option string) : Prop :=
  Text.truthy d = true /\ d ≫= Date_toISOString = None.

(** The five metrics [exportToCSV] writes: name, unit and property. *)
Definition csv_metrics {number : Type}
  : list (string * string * (Types.AnalysisResult number -> option number)) :=
  [ ("AEP", "GWh", Types.aep_gwh);
    ("Uncertainty", "%", Types.uncertainty_pct);
    ("Capacity Factor", "%", Types.capacity_factor);
    ("Plant Capacity", "MW", Types.plant_capacity_mw);
    ("Iterations", "count", Types.iterations) ].

(** The rows whose first cell is a given name. *)
Definition rows_named (name : string) (rows : list (list string)) : list (list string) :=
  List.filter (fun row => match row with
                          | cell :: _ => String.eqb cell name
                          | [] => false
                          end) rows.

(** No cell of the row holds a double quote. *)
Definition quote_free (row : list string) : Prop :=
  Forall (fun cell => Text.includes cell Text.dquote = false) row.

(** A cell that holds the text of two quoted cells. *)
Definition two_in_one : string := "a" +:+ Text.dquote +:+ "," +:+ Text.dquote +:+ "b".

(** A result that names its type in capitals and has no metric. *)
Definition shouting_result : Types.AnalysisResult PrimFloat.float :=
  {| Types.analysis_type := "EYA_GAP_ANALYSIS"; Types.notes := None;
     Types.raw_columns := None;
     Types.aep_gwh := None; Types.uncertainty_pct := None;
     Types.capacity_factor := None; Types.plant_capacity_mw := None;
     Types.iterations := None;
     Types.total_loss_pct := None; Types.wake_loss_pct := None;
     Types.ideal_energy_gwh := None; Types.gap_pct := None |}.

(** The number of metrics a result has, out of the eight the panel
    and the bar chart know. *)
Definition present_metrics {number : Type} (r : Types.AnalysisResult number) : nat :=
  length (omap (fun property => property r)
            [Types.aep_gwh; Types.ideal_energy_gwh; Types.total_loss_pct;
             Types.wake_loss_pct; Types.gap_pct; Types.uncertainty_pct;
             Types.capacity_factor; Types.plant_capacity_mw]).

(** A file that was selected in the state or is offered by an event
    of the list. *)
Definition from_events (s : FileUpload.State) (events : list FileUpload.event)
    (file : Api.File) : Prop :=
  FileUpload.selectedFile s = Some file
  \/ exists e, e ∈ events /\ FileUpload.offered e = Some file.

(* ================================================================== *)
(** * Part II: theorems                                                 *)
(* ================================================================== *)

(** ** The API client boundary *)

Section ClientFacts.
Import Js Api.
Context {T : Type} (API_URL : string) (fetch : HttpRequest -> Promise (Response T)).

Lemma settle_resolved_inv prefix (r : Promise (Response T)) (v : T) :
  settle T prefix r = Resolved v ->
  exists response, r = Resolved response /\ ok response = true /\ json response = Some v.
Proof.
  destruct r as [response|e]; simpl; [|discriminate].
  destruct (ok response) eqn:Hok; simpl; [|discriminate].
  destruct (json response) as [w|] eqn:Hjson; [|discriminate].
  intros [= ->]. exists response. auto.
Qed.

Lemma settle_not_ok prefix (response : Response T) :
  ok response = false ->
  settle T prefix (Resolved response)
  = Rejected (Error (or_else (text response) (prefix +:+ show_nat (status response)))).
Proof. intros Hok. simpl. now rewrite Hok. Qed.

Lemma settle_rejected prefix e :
  settle T prefix (Rejected e) = Rejected e.
Proof. reflexivity. Qed.

End ClientFacts.

(** C7, as amended. For every request whose [fetch] resolves to a
    response: [request] returns a value exactly when the response is ok
    and its body parses as JSON, and the value is that parsed body; on a
    response that is not ok it throws an [Error] carrying the body text,
    or [Request failed with <status>] when the body is empty; an ok
    response whose body is not JSON makes it reject with the parser's
    error. In no case is a partial result returned. *)
Theorem request_returns_iff_ok_and_json
    (T : Type) (API_URL : string)
    (fetch : Api.HttpRequest -> Js.Promise (Api.Response T))
    (path : string) (init : option Api.RequestInit) (response : Api.Response T) :
  fetch (Api.request_args API_URL path init) = Js.Resolved response ->
  (forall v, Api.request T API_URL fetch path init = Js.Resolved v
             <-> Api.ok response = true /\ Api.json response = Some v)
  /\ (Api.ok response = false ->
      Api.request T API_URL fetch path init
      = Js.Rejected (Js.Error
          (if decide (Api.text response = "")
           then "Request failed with " +:+ Js.show_nat (Api.status response)
           else Api.text response)))
  /\ (Api.ok response = true -> Api.json response = None ->
      Api.request T API_URL fetch path init = Js.Rejected Js.SyntaxError).
Proof.
  intros Hfetch. unfold Api.request. rewrite Hfetch.
  split; [intros v; split|split].
  - intros H. apply settle_resolved_inv in H as (r & [= <-] & Hok & Hjson). auto.
  - intros [Hok Hjson]. simpl. now rewrite Hok, Hjson.
  - intros Hok. rewrite settle_not_ok by exact Hok.
    destruct (decide (Api.text response = "")) as [He|Hne].
    + now rewrite He.
    + destruct (Api.text response); [congruence|reflexivity].
  - intros Hok Hjson. simpl. now rewrite Hok, Hjson.
Qed.

Lemma request_returns_iff_ok_and_json_witness :
  Api.request unit "http://localhost:8000" not_found_network "/health" None
  = Js.Rejected (Js.Error "Not Found").
Proof.
  pose proof (request_returns_iff_ok_and_json unit "http://localhost:8000"
                not_found_network "/health" None _ eq_refl) as (_ & H & _).
  exact (H eq_refl).
Defined.

(** C7, as stated, fails: a response that is ok but whose body is not
    JSON (a proxy's HTML page, say) makes [request] reject, so being ok
    does not suffice for the parsed body to be returned. *)
Lemma request_ok_without_json_rejects :
  let response : Api.Response unit :=
    {| Api.ok := true; Api.status := 200;
       Api.text := "<html>Bad Gateway</html>"; Api.json := None |} in
  let fetch := fun _ : Api.HttpRequest => Js.Resolved response in
  ~ ((exists v, Api.request unit "http://localhost:8000" fetch "/health" None = Js.Resolved v)
     <-> Api.ok response = true).
Proof.
  intros response fetch [_ H]. destruct (H eq_refl) as [v Hv]. discriminate Hv.
Qed.

(** ** Iteration capping *)


(** ** Dataset resolution in the dashboard *)




(** ** The multi-analysis selector *)

Section SelectorFacts.
Import MultiAnalysisSelector.


Lemma set_add_short sel t :
  short_only sel -> long_running t = false -> short_only (set_add sel t).
Proof.
  intros Hsel Ht. unfold set_add. destruct (set_has sel t); [exact Hsel|].
  apply Forall_app. split; [exact Hsel|]. constructor; [exact Ht|constructor].
Qed.

Lemma set_delete_short sel t : short_only sel -> short_only (set_delete sel t).
Proof.
  unfold short_only, set_delete. rewrite !Forall_forall.
  intros H u Hu. apply H. apply list_elem_of_In.
  apply list_elem_of_In in Hu. apply filter_In in Hu. tauto.
Qed.

Lemma toggle_long_running sel t :
  long_running t = true -> toggleSelection sel t = sel.
Proof. destruct t; try discriminate; reflexivity. Qed.

Lemma toggleSelection_short sel t :
  short_only sel -> short_only (toggleSelection sel t).
Proof.
  intros Hsel. destruct (long_running t) eqn:Ht.
  - now rewrite toggle_long_running.
  - assert (toggleSelection sel t
            = if set_has sel t then set_delete sel t else set_add sel t) as ->
      by (destruct t; try discriminate; reflexivity).
    destruct (set_has sel t); auto using set_delete_short, set_add_short.
Qed.

Lemma selectAll_short : short_only selectAll.
Proof. vm_compute. repeat constructor. Qed.

Lemma step_safe s a : safe s -> safe (step s a).
Proof.
  intros [Hsel Hinv]. destruct a; simpl; split; simpl; auto.
  - now apply toggleSelection_short.
  - apply selectAll_short.
  - constructor.
  - apply Forall_app. split; [exact Hinv|].
    unfold handleRunMultiple. destruct (0 <? length (selectedTypes s))%nat; auto.
Qed.

Lemma fold_step_safe actions s : safe s -> safe (fold_left step actions s).
Proof.
  revert s. induction actions as [|a actions IH]; intros s Hs; simpl; [exact Hs|].
  apply IH, step_safe, Hs.
Qed.

End SelectorFacts.


(** ** The comparison export *)

Section ExportFacts.
Import Types Text ExportUtils.
Context {number : Type} (zero : number) (toString : number -> string)
        (Date_toISOString : string -> option string).

Lemma toString_or_zero (x : option number) :
  toString zero = "0" -> toString (or_zero number zero x) = written toString x.
Proof. intros H0. destruct x; [reflexivity|exact H0]. Qed.

Lemma comparison_row_ok (a : AnalysisResponse number) :
  toString zero = "0" ->
  (truthy (created_at a) = true -> is_Some (created_at a ≫= Date_toISOString)) ->
  exists created,
    comparison_row number zero toString Date_toISOString a
    = Some (expected_row toString a created).
Proof.
  intros H0 Hdate. unfold comparison_row, created_cell.
  destruct (truthy (created_at a)) eqn:Ht.
  - destruct (Hdate eq_refl) as [created ->]. exists created. simpl.
    unfold expected_row. now rewrite !toString_or_zero.
  - exists EmptyString. simpl. unfold expected_row. now rewrite !toString_or_zero.
Qed.

Lemma comparison_rows_ok (analyses : list (AnalysisResponse number)) :
  toString zero = "0" -> dates_ok Date_toISOString analyses ->
  exists rows,
    mapM (comparison_row number zero toString Date_toISOString) analyses = Some rows
    /\ Forall2 (fun a row => exists created, row = expected_row toString a created)
     analyses rows.
Proof.
  intros H0. induction 1 as [|a analyses Ha _ (rows & Hrows & Hall)].
  - exists []. split; [reflexivity|constructor].
  - destruct (comparison_row_ok a H0 Ha) as [created Hrow].
    exists (expected_row toString a created :: rows). split.
    + cbn. rewrite Hrow. cbn. rewrite Hrows. reflexivity.
    + constructor; eauto.
Qed.

End ExportFacts.

(** C10, as amended. [exportComparisonToCSV] of the empty list returns
    without a file. Of a list that is not empty and whose creation
    times, where present, are dates, it downloads one CSV whose lines
    after the header are the rows of the analyses, one each and in input
    order, and in each row an absent [aep_gwh], [uncertainty_pct],
    [capacity_factor] or [iterations] is written as ["0"], which is also
    what a present zero is written as. *)
Theorem comparison_csv_row_per_analysis
    (number : Type) (zero : number) (toString : number -> string)
    (Date_toISOString : string -> option string)
    (today : string) (analyses : list (Types.AnalysisResponse number)) :
  toString zero = "0" ->
  dates_ok Date_toISOString analyses ->
  ExportUtils.exportComparisonToCSV number zero toString Date_toISOString today []
  = ExportUtils.Returned None
  /\ written toString (Some zero) = written toString None
  /\ (analyses <> [] ->
      exists rows,
        ExportUtils.exportComparisonToCSV number zero toString Date_toISOString today analyses
        = ExportUtils.Returned (Some
            {| ExportUtils.content :=
                 Text.join Text.newline
                   (Text.join "," ExportUtils.comparison_headers
                    :: List.map ExportUtils.csv_line rows);
               ExportUtils.filename := "analysis_comparison_" +:+ today +:+ ".csv";
               ExportUtils.mimeType := "text/csv" |})
        /\ length rows = length analyses
        /\ forall i a, analyses !! i = Some a ->
             exists created, rows !! i = Some (expected_row toString a created)).
Proof.
  intros H0 Hdates. split; [reflexivity|]. split; [exact H0|].
  intros Hne.
  destruct (comparison_rows_ok zero toString Date_toISOString analyses H0 Hdates)
    as (rows & Hrows & Hall).
  exists rows. split; [|split].
  - unfold ExportUtils.exportComparisonToCSV.
    destruct analyses as [|a analyses]; [contradiction|].
    cbn [length Nat.eqb]. now rewrite Hrows.
  - symmetry. eapply Forall2_length, Hall.
  - intros i a Hi.
    destruct (Forall2_lookup_l _ _ _ _ _ Hall Hi) as (row & Hrow & created & ->).
    eauto.
Qed.

Lemma comparison_csv_row_per_analysis_witness :
  exists rows,
    ExportUtils.exportComparisonToCSV Z 0 Platform.Z_toString Platform.utc_toISOString
      "2025-01-15" [aep_run; losses_run None]
    = ExportUtils.Returned (Some
        {| ExportUtils.content :=
             Text.join Text.newline
               (Text.join "," ExportUtils.comparison_headers
                :: List.map ExportUtils.csv_line rows);
           ExportUtils.filename := "analysis_comparison_" +:+ "2025-01-15" +:+ ".csv";
           ExportUtils.mimeType := "text/csv" |})
    /\ length rows = 2%nat
    /\ forall i a, [aep_run; losses_run None] !! i = Some a ->
         exists created, rows !! i = Some (expected_row Platform.Z_toString a created).
Proof.
  refine (proj2 (proj2 (comparison_csv_row_per_analysis Z 0 Platform.Z_toString
            Platform.utc_toISOString "2025-01-15" [aep_run; losses_run None]
            eq_refl _)) _).
  - repeat constructor; simpl; intros; try discriminate; eexists; reflexivity.
  - discriminate.
Defined.

(** C10, as stated, fails: an analysis whose [created_at] is not a date
    makes [toISOString] throw, and no row is emitted at all. *)
Lemma comparison_csv_invalid_date_throws :
  ExportUtils.exportComparisonToCSV Z 0 Platform.Z_toString Platform.utc_toISOString
    "2025-01-15" [aep_run; losses_run (Some "not a date")]
  = ExportUtils.RangeError.
Proof. reflexivity. Qed.

(** ** Summary statistics of the comparison view *)

Section SummaryFacts.
Import Types ComparisonView.
Context {number : Type} (zero : number)
        (add sub div Math_min Math_max : number -> number -> number)
        (of_nat : nat -> number) (toFixed : nat -> number -> string).

Lemma metric_values_elem k (analyses : list (AnalysisResponse number)) v :
  v ∈ metric_values number k analyses
  <-> exists a, a ∈ analyses /\ result_at number k (result a) = Some v.
Proof. unfold metric_values. apply list_elem_of_omap. Qed.

Lemma metric_values_nil k (analyses : list (AnalysisResponse number)) :
  metric_values number k analyses = []
  <-> forall a, a ∈ analyses -> result_at number k (result a) = None.
Proof.
  unfold metric_values. induction analyses as [|a analyses IH]; simpl.
  - split; [intros _ a Ha; inversion Ha|reflexivity].
  - destruct (result_at number k (result a)) eqn:Hv; simpl.
    + split; [discriminate|]. intros H. specialize (H a (list_elem_of_here _ _)).
      congruence.
    + rewrite IH. split.
      * intros H b Hb. apply elem_of_cons in Hb as [->|Hb]; auto.
      * intros H b Hb. apply H. now apply list_elem_of_further.
Qed.

Lemma stats_None values :
  stats number zero add sub div Math_min Math_max of_nat values = None <-> values = [].
Proof. destruct values; simpl; split; congruence. Qed.

Lemma summary_card_None metric (analyses : list (AnalysisResponse number)) :
  summary_card number zero add sub div Math_min Math_max of_nat toFixed metric analyses = None
  <-> metric_values number (key metric) analyses = [].
Proof.
  unfold summary_card. rewrite <- stats_None.
  destruct (stats _ _ _ _ _ _ _ _ _); simpl; split; congruence.
Qed.

End SummaryFacts.

Section ExactFacts.

Lemma exact_of_nat_S n : (Exact.of_nat (S n) == Exact.of_nat n + 1)%Q.
Proof.
  unfold Exact.of_nat. rewrite Nat2Z.inj_succ. unfold Z.succ.
  now rewrite inject_Z_plus.
Qed.

Lemma exact_of_nat_pos n : (0 < Exact.of_nat (S n))%Q.
Proof.
  rewrite exact_of_nat_S.
  assert (0 <= Exact.of_nat n)%Q.
  { unfold Exact.of_nat. change 0%Q with (inject_Z 0). rewrite <- Zle_Qle. lia. }
  lra.
Qed.

(** The running minimum is below its seed and below every element
    folded in. *)
Lemma fold_Qmin_below rest : forall v,
  (fold_left Qmin rest v <= v)%Q
  /\ Forall (fun x => (fold_left Qmin rest v <= x)%Q) rest.
Proof.
  induction rest as [|y rest IH]; intros v; simpl.
  - split; [apply Qle_refl|constructor].
  - destruct (IH (Qmin v y)) as [Hseed Hrest]. split.
    + eapply Qle_trans; [exact Hseed|apply Q.le_min_l].
    + constructor; [|exact Hrest].
      eapply Qle_trans; [exact Hseed|apply Q.le_min_r].
Qed.

Lemma fold_Qmax_above rest : forall v,
  (v <= fold_left Qmax rest v)%Q
  /\ Forall (fun x => (x <= fold_left Qmax rest v)%Q) rest.
Proof.
  induction rest as [|y rest IH]; intros v; simpl.
  - split; [apply Qle_refl|constructor].
  - destruct (IH (Qmax v y)) as [Hseed Hrest]. split.
    + eapply Qle_trans; [apply Q.le_max_l|exact Hseed].
    + constructor; [|exact Hrest].
      eapply Qle_trans; [apply Q.le_max_r|exact Hseed].
Qed.

(** A sum of numbers that all lie between [lo] and [hi]. *)
Lemma fold_Qplus_bounds l : forall acc lo hi,
  Forall (fun x => (lo <= x)%Q /\ (x <= hi)%Q) l ->
  (acc + lo * Exact.of_nat (length l) <= fold_left Qplus l acc)%Q
  /\ (fold_left Qplus l acc <= acc + hi * Exact.of_nat (length l))%Q.
Proof.
  induction l as [|x l IH]; intros acc lo hi Hl.
  - cbn [length fold_left]. change (Exact.of_nat 0) with 0%Q. split; lra.
  - inversion Hl as [|? ? [Hlo Hhi] Hl']; subst.
    destruct (IH (acc + x)%Q lo hi Hl') as [Hlower Hupper].
    cbn [length fold_left]. rewrite exact_of_nat_S. split; lra.
Qed.

Lemma exact_stats_between (values : list Q) st :
  Exact.stats values = Some st ->
  (ComparisonView.min st <= ComparisonView.avg st)%Q
  /\ (ComparisonView.avg st <= ComparisonView.max st)%Q
  /\ ComparisonView.range st = (ComparisonView.max st - ComparisonView.min st)%Q.
Proof.
  destruct values as [|v rest]; [discriminate|].
  unfold Exact.stats, ComparisonView.stats. intros [= <-].
  cbn [ComparisonView.avg ComparisonView.min ComparisonView.max ComparisonView.range].
  unfold ComparisonView.min_of, ComparisonView.max_of.
  set (lo := fold_left Qmin rest v). set (hi := fold_left Qmax rest v).
  destruct (fold_Qmin_below rest v) as [Hlo_v Hlo_rest].
  destruct (fold_Qmax_above rest v) as [Hhi_v Hhi_rest].
  assert (Hall : Forall (fun x => (lo <= x)%Q /\ (x <= hi)%Q) (v :: rest)).
  { constructor; [split; assumption|].
    rewrite Forall_forall in *. intros x Hx. split; [now apply Hlo_rest|now apply Hhi_rest]. }
  destruct (fold_Qplus_bounds (v :: rest) 0%Q lo hi Hall) as [Hlower Hupper].
  pose proof (exact_of_nat_pos (length rest)) as Hpos.
  change (S (length rest)) with (length (v :: rest)) in Hpos.
  cbn [fold_left length] in Hlower, Hupper, Hpos.
  split; [|split; [|reflexivity]].
  - apply Qle_shift_div_l; [exact Hpos|]. lra.
  - apply Qle_shift_div_r; [exact Hpos|]. lra.
Qed.

End ExactFacts.

(** C9, as amended. For each summary metric of the comparison view and
    every list of analyses, in any arithmetic: the values that
    contribute are exactly those of the analyses that carry the metric;
    no card is rendered exactly when none does; otherwise the card
    shows the sum of the values divided by their number as the average,
    and the maximum minus the minimum as the range. The summary grid
    has the cards of the first two metrics, AEP and uncertainty, and is
    not rendered for an empty list. In exact arithmetic the minimum is
    at most the average and the average at most the maximum. *)
Theorem summary_card_statistics
    (number : Type) (zero : number)
    (add sub div Math_min Math_max : number -> number -> number)
    (of_nat : nat -> number) (toFixed : nat -> number -> string)
    (metric : ComparisonView.Metric)
    (analyses : list (Types.AnalysisResponse number)) :
  let values := ComparisonView.metric_values number (ComparisonView.key metric) analyses in
  let card := ComparisonView.summary_card number zero add sub div Math_min Math_max
                of_nat toFixed metric analyses in
  let format := toFixed (ComparisonView.digits metric) in
  (forall v, v ∈ values <->
     exists a, a ∈ analyses
       /\ ComparisonView.result_at number (ComparisonView.key metric) (Types.result a) = Some v)
  /\ (card = None <->
      forall a, a ∈ analyses ->
        ComparisonView.result_at number (ComparisonView.key metric) (Types.result a) = None)
  /\ (forall v rest, values = v :: rest ->
      card = Some
        {| ComparisonView.card_label := ComparisonView.label metric;
           ComparisonView.shown_average :=
             format (div (fold_left add values zero) (of_nat (length values)));
           ComparisonView.shown_range :=
             format (sub (fold_left Math_max rest v) (fold_left Math_min rest v));
           ComparisonView.shown_min := format (fold_left Math_min rest v);
           ComparisonView.shown_max := format (fold_left Math_max rest v) |})
  /\ ComparisonView.summary number zero add sub div Math_min Math_max of_nat toFixed analyses
     = match analyses with
       | [] => None
       | _ => Some (List.map
                      (fun m => ComparisonView.summary_card number zero add sub div
                                  Math_min Math_max of_nat toFixed m analyses)
                      [ {| ComparisonView.key := ComparisonView.key_aep_gwh;
                           ComparisonView.label := "AEP (GWh)";
                           ComparisonView.digits := 2 |};
                        {| ComparisonView.key := ComparisonView.key_uncertainty_pct;
                           ComparisonView.label := "Uncertainty (%)";
                           ComparisonView.digits := 2 |} ])
       end
  /\ (forall (exact_values : list Q) st,
      Exact.stats exact_values = Some st ->
      (ComparisonView.min st <= ComparisonView.avg st)%Q
      /\ (ComparisonView.avg st <= ComparisonView.max st)%Q
      /\ ComparisonView.range st = (ComparisonView.max st - ComparisonView.min st)%Q).
Proof.
  intros values card format. split; [|split; [|split; [|split]]].
  - intros v. apply metric_values_elem.
  - subst card. rewrite summary_card_None. apply metric_values_nil.
  - intros v rest Hvalues. subst card. unfold ComparisonView.summary_card.
    fold values. rewrite Hvalues. reflexivity.
  - destruct analyses; reflexivity.
  - apply exact_stats_between.
Qed.

(** C9, as stated, fails on doubles: for three analyses whose AEP is
    0.1, the sum 0.1 + 0.1 + 0.1 rounds up and the average that the
    component computes is above the maximum. *)
Lemma double_average_above_max :
  exists st,
    JsNumber.stats
      (ComparisonView.metric_values PrimFloat.float ComparisonView.key_aep_gwh
         [aep_of JsNumber.one_tenth; aep_of JsNumber.one_tenth; aep_of JsNumber.one_tenth]) = Some st
    /\ ComparisonView.max st = JsNumber.one_tenth
    /\ PrimFloat.ltb (ComparisonView.max st) (ComparisonView.avg st) = true
    /\ PrimFloat.leb (ComparisonView.avg st) (ComparisonView.max st) = false.
Proof.
  eexists. split; [reflexivity|]. repeat split; vm_compute; reflexivity.
Qed.

(** ** The result bag and its consumers *)

Section BagFacts.
Import Types Dispatcher.
Context {number : Type} (toFixed : nat -> number -> string).



Lemma labels_push_present (x : option number) entry (m : list ResultPanel.MetricEntry) :
  List.map ResultPanel.label (ResultPanel.push_present number x entry m)
  = (List.map ResultPanel.label m
     ++ match x with Some v => [ResultPanel.label (entry v)] | None => [] end)%list.
Proof.
  destruct x; simpl; [now rewrite List.map_app|now rewrite app_nil_r].
Qed.

(** The labels the panel shows, in order. *)
Lemma metrics_labels (r : AnalysisResult number) :
  List.map ResultPanel.label (ResultPanel.metrics number toFixed r)
  = ((match aep_gwh r with Some _ => ["Net AEP"] | None => [] end)
     ++ (match ideal_energy_gwh r with Some _ => ["Ideal Energy"] | None => [] end)
     ++ (match total_loss_pct r with Some _ => ["Electrical Losses"] | None => [] end)
     ++ (match wake_loss_pct r with Some _ => ["Wake Losses"] | None => [] end)
     ++ (match gap_pct r with Some _ => ["Gap"] | None => [] end)
     ++ (match uncertainty_pct r with Some _ => ["Uncertainty"] | None => [] end)
     ++ (match capacity_factor r with Some _ => ["Capacity Factor"] | None => [] end)
     ++ (match plant_capacity_mw r with Some _ => ["Plant Capacity"] | None => [] end))%list.
Proof.
  unfold ResultPanel.metrics. rewrite !labels_push_present. simpl.
  destruct (aep_gwh r), (ideal_energy_gwh r), (total_loss_pct r), (wake_loss_pct r),
    (gap_pct r), (uncertainty_pct r), (capacity_factor r), (plant_capacity_mw r);
    reflexivity.
Qed.







End BagFacts.

(** The earlier panel shows its four metrics of every result of its
    own type, in which they cannot be absent. *)
Lemma metrics_v1_labels (number : Type) (toFixed : nat -> number -> string)
    (r : ResultPanelV1.AnalysisResult number) :
  List.map ResultPanel.label (ResultPanelV1.metrics number toFixed r)
  = ["Net AEP"; "Uncertainty"; "Capacity Factor"; "Plant Capacity"].
Proof. reflexivity. Qed.


(** ** The column mapper *)

Section MapperFacts.
Import ColumnMapper.

Lemma find_pointwise {X : Type} (p q : X -> bool) (l : list X) :
  (forall x, p x = q x) -> List.find p l = List.find q l.
Proof.
  intros Hpq. induction l as [|x l IH]; simpl; [reflexivity|].
  now rewrite Hpq, IH.
Qed.

Lemma same_header_variant a h h' :
  case_variant h h' -> same_header a h = same_header a h'.
Proof. unfold case_variant, same_header. now intros ->. Qed.

Lemma map_header_variant A S h h' :
  case_variant h h' -> map_header A S h = map_header A S h'.
Proof.
  intros Hv. unfold map_header, alias_of, canonical_of.
  rewrite (find_pointwise _ (fun entry => same_header (fst entry) h') A)
    by (intros x; now apply same_header_variant).
  rewrite (find_pointwise _ (fun field => same_header field h') (canonical_fields S))
    by (intros x; now apply same_header_variant).
  reflexivity.
Qed.

Lemma targets_variant A S H H' :
  Forall2 case_variant H H' ->
  List.map (map_header A S) H = List.map (map_header A S) H'.
Proof.
  induction 1 as [|h h' H H' Hv _ IH]; simpl; [reflexivity|].
  now rewrite (map_header_variant A S h h' Hv), IH.
Qed.

Lemma Map_variant A S H H' :
  Forall2 case_variant H H' ->
  Forall2 (fun p p' => case_variant (fst p) (fst p') /\ snd p = snd p')
    (Map A S H) (Map A S H').
Proof.
  unfold Map. induction 1 as [|h h' H H' Hv _ IH]; simpl; [constructor|].
  rewrite (map_header_variant A S h h' Hv).
  destruct (map_header A S h'); simpl; [constructor; auto|exact IH].
Qed.

Lemma Map_fields A S H :
  List.map snd (Map A S H) = omap (map_header A S) H.
Proof.
  unfold Map. induction H as [|h H IH]; [reflexivity|].
  cbn [omap list_omap]. destruct (map_header A S h); cbn; [f_equal|]; exact IH.
Qed.

Lemma Map_fields_variant A S H H' :
  Forall2 case_variant H H' ->
  List.map snd (Map A S H) = List.map snd (Map A S H').
Proof.
  intros Hv. rewrite !Map_fields.
  induction Hv as [|h h' H H' Hh _ IH]; [reflexivity|].
  cbn [omap list_omap]. rewrite (map_header_variant A S h h' Hh).
  destruct (map_header A S h'); [f_equal|]; exact IH.
Qed.

Lemma lower_char_idem c : lower_char (lower_char c) = lower_char c.
Proof.
  destruct c as [[] [] [] [] [] [] [] []]; reflexivity.
Qed.

(** Lower-casing a header is one way of changing its case. *)
Lemma case_variant_lower h : case_variant h (lower h).
Proof.
  unfold case_variant. induction h as [|c h IH]; simpl; [reflexivity|].
  now rewrite lower_char_idem, <- IH.
Qed.

Lemma lower_char_swap_case c : lower_char (swap_case c) = lower_char c.
Proof.
  destruct c as [[] [] [] [] [] [] [] []]; reflexivity.
Qed.

(** So is changing the case of any of its letters. *)
Lemma case_variant_recase mask h : case_variant h (recase mask h).
Proof.
  unfold case_variant. revert mask.
  induction h as [|c h IH]; intros [|[] mask]; simpl; try reflexivity.
  - now rewrite lower_char_swap_case, <- IH.
  - now rewrite <- IH.
Qed.

(** The mapping of a header list does not see a change of case of any
    of its letters. *)
Lemma map_header_recase A S mask h :
  map_header A S (recase mask h) = map_header A S h.
Proof. symmetry. apply map_header_variant, case_variant_recase. Qed.

End MapperFacts.

(** C3. For every alias table, schema and header list, changing the
    letter case of the headers does not change the column mapping: each
    header is given the same canonical field (or is left unmapped, all
    the same), the pairs of the mapping agree up to the case of the
    source header, and the same required fields are reported
    missing. *)
Theorem mapping_case_insensitive
    (A : ColumnMapper.AliasTable) (S : ColumnMapper.Schema) (H H' : list string) :
  Forall2 case_variant H H' ->
  List.map (ColumnMapper.map_header A S) H = List.map (ColumnMapper.map_header A S) H'
  /\ Forall2 (fun p p' => case_variant (fst p) (fst p') /\ snd p = snd p')
       (ColumnMapper.Map A S H) (ColumnMapper.Map A S H')
  /\ ColumnMapper.missing_required A S H = ColumnMapper.missing_required A S H'.
Proof.
  intros Hv. split; [now apply targets_variant|]. split; [now apply Map_variant|].
  unfold ColumnMapper.missing_required. now rewrite (Map_fields_variant A S H H' Hv).
Qed.

Example recase_P_avg : recase [true; false; true; true; true] "P_avg" = "p_AVG".
Proof. reflexivity. Qed.

Lemma mapping_case_insensitive_witness :
  List.map (ColumnMapper.map_header ColumnMapper.la_haute_borne_aliases
              ColumnMapper.scada_schema) ["Date_time"; "P_avg"; "Ws_avg"; "Ya_avg"]
  = List.map (ColumnMapper.map_header ColumnMapper.la_haute_borne_aliases
                ColumnMapper.scada_schema) ["DATE_TIME"; "p_AVG"; "ws_avg"; "YA_AVG"].
Proof.
  refine (proj1 (mapping_case_insensitive ColumnMapper.la_haute_borne_aliases
                   ColumnMapper.scada_schema
                   ["Date_time"; "P_avg"; "Ws_avg"; "Ya_avg"]
                   ["DATE_TIME"; "p_AVG"; "ws_avg"; "YA_AVG"] _)).
  repeat constructor.
Defined.

(** ** Uploading a CSV *)

Section CsvFacts.

Lemma split_on_free c s : free_of c s = true -> Csv.split_on c s = [s].
Proof.
  induction s as [|d s IH]; simpl; [reflexivity|].
  intros [Hd Hs]%andb_prop. apply negb_true_iff in Hd. rewrite Hd.
  now rewrite (IH Hs).
Qed.

Lemma split_on_piece c s rest :
  free_of c s = true ->
  Csv.split_on c (s +:+ String c rest) = s :: Csv.split_on c rest.
Proof.
  induction s as [|d s IH]; simpl.
  - intros _. now rewrite Ascii.eqb_refl.
  - intros [Hd Hs]%andb_prop. apply negb_true_iff in Hd. rewrite Hd.
    now rewrite (IH Hs).
Qed.

Lemma lines_join ls :
  Forall data_line ls -> Csv.lines (Text.join Text.newline ls) = ls.
Proof.
  unfold Csv.lines. induction 1 as [|l ls [Hne Hfree] Hls IH]; [reflexivity|].
  destruct ls as [|l' ls].
  - simpl. rewrite (split_on_free _ _ Hfree). simpl. now rewrite Hne.
  - change (Text.join Text.newline (l :: l' :: ls))
      with (l +:+ String "010"%char (Text.join Text.newline (l' :: ls))).
    rewrite (split_on_piece _ _ _ Hfree). cbn [List.filter]. rewrite Hne.
    f_equal. exact IH.
Qed.

End CsvFacts.

Lemma put_scenario_A
    (now : Z) (new_id filename : string)
    (reg : gmap string DatasetRegistry.Stored) (data : list string) :
  Forall data_line data ->
  (Z.of_nat (String.length (csv_text "Date_time,P_avg,Ws_avg" data))
   <= DatasetRegistry.MAX_UPLOAD_BYTES)%Z ->
  DatasetRegistry.put ColumnMapper.la_haute_borne_aliases ColumnMapper.scada_schema
    now new_id (csv_text "Date_time,P_avg,Ws_avg" data) filename reg
  = inr (scenario_A_dataset now new_id filename data,
         <[new_id := {| DatasetRegistry.meta := scenario_A_dataset now new_id filename data;
                        DatasetRegistry.rows := List.map (Csv.split_on ",") data |}]> reg).
Proof.
  intros Hdata Hsize. unfold DatasetRegistry.put.
  destruct (DatasetRegistry.MAX_UPLOAD_BYTES <? _)%Z eqn:Hbig; [lia|].
  unfold Csv.parse, csv_text. rewrite lines_join.
  - unfold scenario_A_dataset. now rewrite length_map.
  - constructor; [split; reflexivity|exact Hdata].
Qed.


Lemma two_records_ok :
  Forall data_line two_records
  /\ (Z.of_nat (String.length (csv_text "Date_time,P_avg,Ws_avg" two_records))
      <= DatasetRegistry.MAX_UPLOAD_BYTES)%Z.
Proof. split; [repeat constructor|vm_compute; discriminate]. Qed.



(** ** Expiry of datasets *)

Section RegistryFacts.
Import DatasetRegistry.

Lemma get_Some (reg : gmap string Stored) id d :
  reg !! id = Some d -> get reg id = inr d.
Proof. unfold get. now intros ->. Qed.

Lemma get_None (reg : gmap string Stored) id :
  reg !! id = None -> get reg id = inl (DatasetNotFound id).
Proof. unfold get. now intros ->. Qed.

Lemma delete_expired_lookup now (reg : gmap string Stored) id :
  delete_expired now reg !! id
  = match reg !! id with
    | Some d => if is_default (meta d) || negb (past now (meta d)) then Some d else None
    | None => None
    end.
Proof.
  unfold delete_expired. destruct (reg !! id) as [d|] eqn:Hd.
  - destruct (is_default (meta d)) eqn:Hdef; simpl.
    + apply map_lookup_filter_Some. split; [exact Hd|]. simpl. now left.
    + destruct (past now (meta d)) eqn:Hpast; simpl.
      * apply map_lookup_filter_None. right. intros d' Hd'. simpl.
        rewrite Hd in Hd'. injection Hd' as <-. intros [H|H]; congruence.
      * apply map_lookup_filter_Some. split; [exact Hd|]. simpl. now right.
  - apply map_lookup_filter_None. now left.
Qed.

End RegistryFacts.

Section RegistryInvariant.
Import DatasetRegistry.
Context (A : ColumnMapper.AliasTable) (S : ColumnMapper.Schema).

Lemma put_inr_inv now new_id bytes filename (reg : gmap string Stored) d reg' :
  put A S now new_id bytes filename reg = inr (d, reg') ->
  is_default d = false
  /\ exists data, reg' = <[new_id := {| meta := d; rows := data |}]> reg.
Proof.
  unfold put. destruct (MAX_UPLOAD_BYTES <? _)%Z; [discriminate|].
  destruct (Csv.parse bytes) as [[header data]|]; [|discriminate].
  destruct (ColumnMapper.missing_required A S header); [|discriminate].
  intros [= <- <-]. split; [reflexivity|]. now exists data.
Qed.

Lemma startup_default_kept now sample : default_kept (startup now sample).
Proof.
  unfold startup. split.
  - eexists. split; [apply lookup_singleton_eq|reflexivity].
  - intros id d Hd Hne. rewrite lookup_singleton_ne in Hd by congruence. discriminate.
Qed.

Lemma put_default_kept now new_id bytes filename (reg : gmap string Stored) d reg' :
  default_kept reg -> reg !! new_id = None ->
  put A S now new_id bytes filename reg = inr (d, reg') ->
  default_kept reg'.
Proof.
  intros [(d0 & Hd0 & Hflag) Hothers] Hfresh Hput.
  apply put_inr_inv in Hput as (Hd & data & ->).
  assert (new_id <> DEFAULT_ID) as Hne by congruence.
  split.
  - exists d0. split; [|exact Hflag]. now rewrite lookup_insert_ne.
  - intros id d' Hlookup Hid. destruct (decide (new_id = id)) as [->|Hother].
    + rewrite lookup_insert_eq in Hlookup. injection Hlookup as <-. exact Hd.
    + rewrite lookup_insert_ne in Hlookup by exact Hother. eauto.
Qed.

Lemma cleanup_default_kept now (reg : gmap string Stored) :
  default_kept reg -> default_kept (delete_expired now reg).
Proof.
  intros [(d0 & Hd0 & Hflag) Hothers]. split.
  - exists d0. split; [|exact Hflag]. now rewrite delete_expired_lookup, Hd0, Hflag.
  - intros id d Hlookup Hid. rewrite delete_expired_lookup in Hlookup.
    destruct (reg !! id) as [d'|] eqn:Hd'; [|discriminate].
    destruct (is_default (meta d') || negb (past now (meta d'))); [|discriminate].
    injection Hlookup as <-. eauto.
Qed.

Lemma reachable_default_kept (reg : gmap string Stored) :
  reachable A S reg -> default_kept reg.
Proof.
  induction 1 as [now sample|reg now new_id bytes filename d reg' _ IH Hfresh Hput
                 |reg now _ IH].
  - apply startup_default_kept.
  - eapply put_default_kept; eassumption.
  - now apply cleanup_default_kept.
Qed.

End RegistryInvariant.

(** C4. In every registry the backend can hold, when [delete_expired]
    runs, each dataset whose [expires_at] has passed is gone, so that a
    later [get] of its id answers [DatasetNotFound]; but for the
    default dataset, under its id ["default"], which is never deleted:
    a later [get] of it answers what it answered before. *)
Theorem expired_dataset_not_found
    (A : ColumnMapper.AliasTable) (S : ColumnMapper.Schema)
    (reg : gmap string DatasetRegistry.Stored) (now : Z) :
  DatasetRegistry.reachable A S reg ->
  (forall id d,
     reg !! id = Some d -> id <> DatasetRegistry.DEFAULT_ID ->
     (DatasetRegistry.expires_at (DatasetRegistry.meta d) < now)%Z ->
     DatasetRegistry.get (DatasetRegistry.delete_expired now reg) id
     = inl (DatasetRegistry.DatasetNotFound id))
  /\ DatasetRegistry.DEFAULT_ID = "default"
  /\ exists d0,
      DatasetRegistry.get reg DatasetRegistry.DEFAULT_ID = inr d0
      /\ DatasetRegistry.get (DatasetRegistry.delete_expired now reg)
           DatasetRegistry.DEFAULT_ID = inr d0.
Proof.
  intros Hreach.
  destruct (reachable_default_kept A S reg Hreach) as [(d0 & Hd0 & Hflag) Hothers].
  split; [|split; [reflexivity|]].
  - intros id d Hd Hid Hpast. apply get_None.
    rewrite delete_expired_lookup, Hd, (Hothers id d Hd Hid).
    unfold DatasetRegistry.past.
    destruct (Z.ltb_spec (DatasetRegistry.expires_at (DatasetRegistry.meta d)) now);
      [reflexivity|lia].
  - exists d0. split; apply get_Some; [exact Hd0|].
    now rewrite delete_expired_lookup, Hd0, Hflag.
Qed.

Lemma registry_after_upload_reachable :
  DatasetRegistry.reachable ColumnMapper.la_haute_borne_aliases ColumnMapper.scada_schema
    registry_after_upload.
Proof.
  eapply DatasetRegistry.reach_put with (now := 1000%Z) (new_id := "3f2b8c1e")
    (filename := "scada.csv").
  - apply DatasetRegistry.reach_startup.
  - apply lookup_singleton_ne. discriminate.
  - apply put_scenario_A; apply two_records_ok.
Qed.

Lemma expired_dataset_not_found_witness :
  DatasetRegistry.get (DatasetRegistry.delete_expired 90000 registry_after_upload)
    "3f2b8c1e"
  = inl (DatasetRegistry.DatasetNotFound "3f2b8c1e").
Proof.
  refine (proj1 (expired_dataset_not_found _ _ registry_after_upload 90000
                   registry_after_upload_reachable)
            "3f2b8c1e" old_upload (lookup_insert_eq _ _ _) _ _).
  - discriminate.
  - vm_compute. reflexivity.
Defined.

(* ================================================================== *)
(** * Part III: further properties of the code                         *)
(* ================================================================== *)

(** ** More on the multi-analysis selector *)

Section SelectorSetFacts.
Import MultiAnalysisSelector.

Lemma set_has_true sel t : set_has sel t = true <-> t ∈ sel.
Proof. unfold set_has. apply bool_decide_eq_true. Qed.

Lemma set_has_false sel t : set_has sel t = false <-> t ∉ sel.
Proof. unfold set_has. apply bool_decide_eq_false. Qed.

Lemma elem_of_set_add sel t u : u ∈ set_add sel t <-> u ∈ sel \/ u = t.
Proof.
  unfold set_add. destruct (set_has sel t) eqn:Hhas.
  - apply set_has_true in Hhas. split; [auto|]. intros [H| ->]; assumption.
  - rewrite elem_of_app, list_elem_of_singleton. tauto.
Qed.

Lemma elem_of_set_delete sel t u : u ∈ set_delete sel t <-> u ∈ sel /\ u <> t.
Proof.
  unfold set_delete. rewrite !list_elem_of_In, filter_In, negb_true_iff,
    bool_decide_eq_false. tauto.
Qed.

Lemma set_add_NoDup sel t : NoDup sel -> NoDup (set_add sel t).
Proof.
  intros Hsel. unfold set_add. destruct (set_has sel t) eqn:Hhas; [exact Hsel|].
  apply set_has_false in Hhas. apply NoDup_app. split; [exact Hsel|].
  split; [|apply NoDup_singleton].
  intros x Hx Hx'. apply list_elem_of_singleton in Hx'. now subst.
Qed.

Lemma set_delete_NoDup sel t : NoDup sel -> NoDup (set_delete sel t).
Proof.
  intros Hsel. induction Hsel as [|u sel Hu Hsel IH]; [constructor|].
  unfold set_delete in *. simpl. destruct (negb (bool_decide (u = t))); [|exact IH].
  constructor; [|exact IH].
  intros Hin. apply Hu. apply list_elem_of_In, filter_In in Hin.
  apply list_elem_of_In, Hin.
Qed.

(** What toggling an option that is not disabled does. *)
Lemma toggle_enabled sel t :
  long_running t = false ->
  toggleSelection sel t = if set_has sel t then set_delete sel t else set_add sel t.
Proof. destruct t; try discriminate; reflexivity. Qed.

Lemma toggleSelection_NoDup sel t : NoDup sel -> NoDup (toggleSelection sel t).
Proof.
  intros Hsel. destruct (long_running t) eqn:Ht.
  - now rewrite toggle_long_running.
  - rewrite toggle_enabled by exact Ht.
    destruct (set_has sel t); auto using set_delete_NoDup, set_add_NoDup.
Qed.

Lemma selectAll_NoDup : NoDup selectAll.
Proof. apply (bool_decide_unpack _). vm_compute. reflexivity. Qed.

Lemma short_only_bound sel : NoDup sel -> short_only sel -> (length sel <= 3)%nat.
Proof.
  intros Hnd Hshort.
  change 3%nat with (length [aep_monte_carlo; electrical_losses; eya_gap_analysis]).
  apply submseteq_length, NoDup_submseteq; [exact Hnd|].
  intros t Ht. unfold short_only in Hshort. rewrite Forall_forall in Hshort.
  specialize (Hshort t Ht). destruct t; try discriminate;
    repeat first [apply list_elem_of_here | apply list_elem_of_further].
Qed.

(** The selection is duplicate-free, and so is every past invocation,
    none of which is empty. *)
Definition distinct (s : State) : Prop :=
  NoDup (selectedTypes s)
  /\ Forall (fun types => types <> [] /\ NoDup types) (invocations s).

Lemma step_distinct s a : distinct s -> distinct (step s a).
Proof.
  intros [Hsel Hinv]. destruct a; simpl; split; simpl; auto.
  - now apply toggleSelection_NoDup.
  - apply selectAll_NoDup.
  - constructor.
  - apply Forall_app. split; [exact Hinv|].
    unfold handleRunMultiple. destruct (selectedTypes s) as [|t sel] eqn:Hs; simpl.
    + constructor.
    + constructor; [|constructor]. split; [discriminate|exact Hsel].
Qed.

Lemma fold_step_distinct actions s : distinct s -> distinct (fold_left step actions s).
Proof.
  revert s. induction actions as [|a actions IH]; intros s Hs; simpl; [exact Hs|].
  apply IH, step_distinct, Hs.
Qed.

Lemma run_app actions more :
  run (actions ++ more) = fold_left step more (run actions).
Proof. unfold run. apply fold_left_app. Qed.

End SelectorSetFacts.

(** X1. Whatever the user does, the selection of the multi-analysis
    selector holds each type at most once and at most three types (so
    the count it shows is the number of selected options), and
    [onRunMultiple] is only ever invoked with a list that is not empty
    and holds no type twice. *)
Theorem selector_selection_distinct (actions : list MultiAnalysisSelector.action) :
  let s := MultiAnalysisSelector.run actions in
  NoDup (MultiAnalysisSelector.selectedTypes s)
  /\ (length (MultiAnalysisSelector.selectedTypes s) <= 3)%nat
  /\ forall types, types ∈ MultiAnalysisSelector.invocations s ->
       types <> [] /\ NoDup types.
Proof.
  intros s.
  destruct (fold_step_distinct actions MultiAnalysisSelector.initial) as [Hnd Hinv].
  { split; constructor. }
  destruct (fold_step_safe actions MultiAnalysisSelector.initial) as [Hshort _].
  { split; constructor. }
  split; [exact Hnd|]. split; [now apply short_only_bound|].
  intros types Hin. rewrite Forall_forall in Hinv. now apply Hinv.
Qed.

(** X2. Toggling an option that is not disabled flips its membership
    in the selection and leaves every other type as it was; toggling a
    disabled option (wake losses, turbine ideal energy) changes
    nothing. *)
Theorem toggle_flips_membership
    (sel : MultiAnalysisSelector.TypeSet) (t u : AnalysisType) :
  (MultiAnalysisSelector.long_running t = false ->
   (t ∈ MultiAnalysisSelector.toggleSelection sel t <-> t ∉ sel)
   /\ (u <> t -> (u ∈ MultiAnalysisSelector.toggleSelection sel t <-> u ∈ sel)))
  /\ (MultiAnalysisSelector.long_running t = true ->
      MultiAnalysisSelector.toggleSelection sel t = sel).
Proof.
  split; [|apply toggle_long_running].
  intros Ht. rewrite toggle_enabled by exact Ht.
  destruct (MultiAnalysisSelector.set_has sel t) eqn:Hhas.
  - apply set_has_true in Hhas. split.
    + rewrite elem_of_set_delete. tauto.
    + intros Hne. rewrite elem_of_set_delete. tauto.
  - apply set_has_false in Hhas. split.
    + rewrite elem_of_set_add. tauto.
    + intros Hne. rewrite elem_of_set_add. tauto.
Qed.

(** X3. Select All selects exactly the options that are not disabled,
    so that running right after it invokes [onRunMultiple] once more,
    with AEP, electrical losses and EYA gap in this order; running right
    after Clear All invokes nothing. *)
Theorem select_all_then_run (actions : list MultiAnalysisSelector.action) :
  (forall t, t ∈ MultiAnalysisSelector.selectAll
             <-> MultiAnalysisSelector.long_running t = false)
  /\ MultiAnalysisSelector.invocations
       (MultiAnalysisSelector.run
          (actions ++ [MultiAnalysisSelector.SelectAll; MultiAnalysisSelector.RunSelected]))
     = (MultiAnalysisSelector.invocations (MultiAnalysisSelector.run actions)
        ++ [[aep_monte_carlo; electrical_losses; eya_gap_analysis]])%list
  /\ MultiAnalysisSelector.invocations
       (MultiAnalysisSelector.run
          (actions ++ [MultiAnalysisSelector.ClearAll; MultiAnalysisSelector.RunSelected]))
     = MultiAnalysisSelector.invocations (MultiAnalysisSelector.run actions).
Proof.
  split; [|split].
  - intros t. destruct t; vm_compute; split; intros H; try discriminate H; try reflexivity;
      try (repeat first [apply list_elem_of_here | apply list_elem_of_further]);
      exfalso; repeat (apply elem_of_cons in H as [H|H]; [discriminate H|]);
      now apply elem_of_nil in H.
  - rewrite run_app. reflexivity.
  - rewrite run_app. simpl. now rewrite app_nil_r.
Qed.

(** ** More on the API client *)

(** X4. For every upload whose [fetch] resolves to a response:
    [uploadPlantData] returns a value exactly when the response is ok
    and its body parses as JSON; on a response that is not ok it throws
    an [Error] carrying the body text, or [Upload failed with <status>]
    when the body is empty; an ok response whose body is not JSON makes
    it reject with the parser's error. *)
Theorem upload_returns_iff_ok_and_json
    (T : Type) (API_URL : string)
    (fetch : Api.HttpRequest -> Js.Promise (Api.Response T))
    (file : Api.File) (response : Api.Response T) :
  fetch (Api.upload_args API_URL file) = Js.Resolved response ->
  (forall v, Api.uploadPlantData T API_URL fetch file = Js.Resolved v
             <-> Api.ok response = true /\ Api.json response = Some v)
  /\ (Api.ok response = false ->
      Api.uploadPlantData T API_URL fetch file
      = Js.Rejected (Js.Error
          (if decide (Api.text response = "")
           then "Upload failed with " +:+ Js.show_nat (Api.status response)
           else Api.text response)))
  /\ (Api.ok response = true -> Api.json response = None ->
      Api.uploadPlantData T API_URL fetch file = Js.Rejected Js.SyntaxError).
Proof.
  intros Hfetch. unfold Api.uploadPlantData. rewrite Hfetch.
  split; [intros v; split|split].
  - intros H. apply settle_resolved_inv in H as (r & [= <-] & Hok & Hjson). auto.
  - intros [Hok Hjson]. simpl. now rewrite Hok, Hjson.
  - intros Hok. rewrite settle_not_ok by exact Hok.
    destruct (decide (Api.text response = "")) as [He|Hne].
    + now rewrite He.
    + destruct (Api.text response); [congruence|reflexivity].
  - intros Hok Hjson. simpl. now rewrite Hok, Hjson.
Qed.

Lemma upload_returns_iff_ok_and_json_witness :
  Api.uploadPlantData App.UploadResponse "http://localhost:8000"
    payload_too_large_network sample_file
  = Js.Rejected (Js.Error "Upload failed with 413").
Proof.
  pose proof (upload_returns_iff_ok_and_json App.UploadResponse "http://localhost:8000"
                payload_too_large_network sample_file _ eq_refl) as (_ & H & _).
  exact (H eq_refl).
Defined.

(** X5. The five analysis types have five different endpoints, all
    under [/api/v1/analysis/], and for the AEP type with [iterations]
    and [file_id] as parameters [runAnalysisByType] makes the very call
    [runAepAnalysis] makes, an absent [file_id] being left out of the
    body by both. *)
Theorem by_type_posts_to_own_endpoint
    (T : Type) (API_URL : string)
    (fetch : Api.HttpRequest -> Js.Promise (Api.Response T)) :
  (forall t u, Api.endpoints t = Api.endpoints u -> t = u)
  /\ (forall t, Text.starts_with "/api/v1/analysis/" (Api.endpoints t) = true)
  /\ (forall iterations file_id,
        Api.runAnalysisByType T API_URL fetch aep_monte_carlo
          [("iterations", Js.Number iterations); ("file_id", file_id_value file_id)]
        = Api.runAepAnalysis T API_URL fetch iterations file_id).
Proof.
  split; [|split].
  - intros t u. destruct t, u; simpl; intros H; try reflexivity; discriminate H.
  - intros t. destruct t; reflexivity.
  - intros iterations file_id. reflexivity.
Qed.

(** ** More on the dashboard *)







(** ** More on the exports *)

Section SingleExportFacts.
Import Types Text ExportUtils.
Context {number : Type} (toString : number -> string)
        (Date_toISOString : string -> option string).

Lemma rows_named_app name (l k : list (list string)) :
  rows_named name (l ++ k) = (rows_named name l ++ rows_named name k)%list.
Proof. unfold rows_named. apply List.filter_app. Qed.

Lemma rows_named_metric_row name name' unit (x : option number) :
  rows_named name (metric_row number toString name' unit x)
  = if String.eqb name' name then metric_row number toString name' unit x else [].
Proof. destruct x; simpl; [|now destruct (String.eqb name' name)]. reflexivity. Qed.

Lemma date_row_None name d :
  date_row Date_toISOString name d = None <-> invalid_date Date_toISOString d.
Proof.
  unfold date_row, invalid_date. destruct (truthy d).
  - destruct (d ≫= Date_toISOString); simpl; split; try tauto; try discriminate.
    intros [_ H]. discriminate H.
  - split; [discriminate|]. intros [H _]. discriminate H.
Qed.

Lemma date_row_Some name d l :
  date_row Date_toISOString name d = Some l ->
  l = [] \/ exists iso, l = [[name; iso; EmptyString]].
Proof.
  unfold date_row. destruct (truthy d).
  - destruct (d ≫= Date_toISOString) as [iso|]; simpl; [|discriminate].
    intros [= <-]. right. now exists iso.
  - intros [= <-]. now left.
Qed.

Lemma rows_named_date_row name name' d l :
  date_row Date_toISOString name' d = Some l ->
  String.eqb name' name = false ->
  rows_named name l = [].
Proof.
  intros Hl Hne. destruct (date_row_Some _ _ _ Hl) as [->|[iso ->]]; [reflexivity|].
  simpl. now rewrite Hne.
Qed.

Lemma date_row_width name d l :
  date_row Date_toISOString name d = Some l ->
  Forall (fun row => length row = 3%nat) l.
Proof.
  intros Hl. destruct (date_row_Some _ _ _ Hl) as [->|[iso ->]]; repeat constructor.
Qed.

Lemma metric_row_width name unit (x : option number) :
  Forall (fun row => length row = 3%nat) (metric_row number toString name unit x).
Proof. destruct x; repeat constructor. Qed.

(** The rows of [exportToCSV], taken apart. *)
Lemma exportToCSV_rows_Some (a : AnalysisResponse number) rows :
  exportToCSV_rows number toString Date_toISOString a = Some rows ->
  exists created completed,
    date_row Date_toISOString "Created At" (created_at a) = Some created
    /\ date_row Date_toISOString "Completed At" (completed_at a) = Some completed
    /\ rows
       = (metric_row number toString "AEP" "GWh" (aep_gwh (result a))
          ++ metric_row number toString "Uncertainty" "%" (uncertainty_pct (result a))
          ++ metric_row number toString "Capacity Factor" "%" (capacity_factor (result a))
          ++ metric_row number toString "Plant Capacity" "MW" (plant_capacity_mw (result a))
          ++ metric_row number toString "Iterations" "count" (iterations (result a))
          ++ [ ["Analysis Type"; analysis_type (result a); EmptyString];
               [EmptyString; EmptyString; EmptyString];
               ["Analysis ID"; id a; EmptyString];
               ["Status"; status_name (status a); EmptyString] ]
          ++ created
          ++ completed
          ++ (if truthy (notes (result a))
              then [["Notes"; default EmptyString (notes (result a)); EmptyString]]
              else []))%list.
Proof.
  unfold exportToCSV_rows.
  destruct (date_row Date_toISOString "Created At" (created_at a)) as [created|];
    [|discriminate].
  destruct (date_row Date_toISOString "Completed At" (completed_at a)) as [completed|];
    [|discriminate].
  simpl. intros [= <-]. exists created, completed. auto.
Qed.

Lemma exportToCSV_rows_None (a : AnalysisResponse number) :
  exportToCSV_rows number toString Date_toISOString a = None
  <-> invalid_date Date_toISOString (created_at a)
      \/ invalid_date Date_toISOString (completed_at a).
Proof.
  rewrite <- (date_row_None "Created At" (created_at a)),
          <- (date_row_None "Completed At" (completed_at a)).
  unfold exportToCSV_rows.
  destruct (date_row Date_toISOString "Created At" (created_at a)); simpl;
    [|split; auto].
  destruct (date_row Date_toISOString "Completed At" (completed_at a)); simpl;
    [|split; auto].
  split; [discriminate|]. intros [H|H]; discriminate H.
Qed.

Lemma comparison_row_None (zero : number) (a : AnalysisResponse number) :
  comparison_row number zero toString Date_toISOString a = None
  <-> invalid_date Date_toISOString (created_at a).
Proof.
  unfold comparison_row, created_cell, invalid_date.
  destruct (truthy (created_at a)).
  - destruct (created_at a ≫= Date_toISOString); simpl; split; try tauto; try discriminate.
    intros [_ H]. discriminate H.
  - simpl. split; [discriminate|]. intros [H _]. discriminate H.
Qed.

End SingleExportFacts.

(** X9. [exportToCSV] throws exactly when the creation time or the
    completion time of the analysis is present, not empty, and not a
    date; in every other case it downloads one file named
    [analysis_<id>.csv]. *)
Theorem single_csv_throws_iff_invalid_date
    (number : Type) (toString : number -> string)
    (Date_toISOString : string -> option string)
    (analysis : Types.AnalysisResponse number) :
  (ExportUtils.exportToCSV number toString Date_toISOString analysis
   = ExportUtils.RangeError
   <-> invalid_date Date_toISOString (Types.created_at analysis)
       \/ invalid_date Date_toISOString (Types.completed_at analysis))
  /\ (ExportUtils.exportToCSV number toString Date_toISOString analysis
      <> ExportUtils.RangeError ->
      exists text,
        ExportUtils.exportToCSV number toString Date_toISOString analysis
        = ExportUtils.Returned (Some
            {| ExportUtils.content := text;
               ExportUtils.filename := "analysis_" +:+ Types.id analysis +:+ ".csv";
               ExportUtils.mimeType := "text/csv" |})).
Proof.
  rewrite <- (exportToCSV_rows_None toString). unfold ExportUtils.exportToCSV.
  destruct (ExportUtils.exportToCSV_rows number toString Date_toISOString analysis).
  - split; [split; discriminate|]. intros _. eexists. reflexivity.
  - split; [split; reflexivity|]. intros H. now contradiction H.
Qed.

(** X10. When [exportToCSV] does not throw, every row of its file has
    three cells; each of the five metrics it knows (AEP, uncertainty,
    capacity factor, plant capacity, iterations) has exactly one row,
    with its value and unit, when the analysis has it, and no row at
    all when it has not (it is not written as 0); and there is exactly
    one row for the analysis id. *)
Theorem single_csv_metric_rows
    (number : Type) (toString : number -> string)
    (Date_toISOString : string -> option string)
    (analysis : Types.AnalysisResponse number) (rows : list (list string)) :
  ExportUtils.exportToCSV_rows number toString Date_toISOString analysis = Some rows ->
  ExportUtils.exportToCSV number toString Date_toISOString analysis
  = ExportUtils.Returned (Some
      {| ExportUtils.content :=
           Text.join Text.newline
             ("Metric,Value,Unit" :: List.map ExportUtils.csv_line rows);
         ExportUtils.filename := "analysis_" +:+ Types.id analysis +:+ ".csv";
         ExportUtils.mimeType := "text/csv" |})
  /\ Forall (fun row => length row = 3%nat) rows
  /\ (forall name unit property, (name, unit, property) ∈ csv_metrics ->
        rows_named name rows
        = match property (Types.result analysis) with
          | Some v => [[name; toString v; unit]]
          | None => []
          end)
  /\ rows_named "Analysis ID" rows = [["Analysis ID"; Types.id analysis; ""]].
Proof.
  intros Hrows. split; [|split; [|split]].
  - unfold ExportUtils.exportToCSV. rewrite Hrows. reflexivity.
  - apply exportToCSV_rows_Some in Hrows as (created & completed & Hc & Hd & ->).
    repeat (apply Forall_app; split); try apply metric_row_width;
      try (eapply date_row_width; eassumption).
    + repeat constructor.
    + destruct (Text.truthy _); repeat constructor.
  - intros name unit property Hin.
    apply exportToCSV_rows_Some in Hrows as (created & completed & Hc & Hd & ->).
    rewrite !rows_named_app, !rows_named_metric_row.
    repeat (apply elem_of_cons in Hin as [[= -> -> ->]|Hin]);
      [..|now apply elem_of_nil in Hin];
      rewrite (rows_named_date_row _ _ _ _ _ Hc) by reflexivity;
      rewrite (rows_named_date_row _ _ _ _ _ Hd) by reflexivity;
      destruct (Text.truthy (Types.notes (Types.result analysis))); cbn;
      match goal with |- context [ExportUtils.metric_row _ _ _ _ ?x] => destruct x end;
      reflexivity.
  - apply exportToCSV_rows_Some in Hrows as (created & completed & Hc & Hd & ->).
    rewrite !rows_named_app, !rows_named_metric_row.
    rewrite (rows_named_date_row _ _ _ _ _ Hc) by reflexivity.
    rewrite (rows_named_date_row _ _ _ _ _ Hd) by reflexivity.
    destruct (Text.truthy (Types.notes (Types.result analysis))); reflexivity.
Qed.

Lemma single_csv_metric_rows_witness :
  exists rows,
    ExportUtils.exportToCSV_rows Z Platform.Z_toString Platform.utc_toISOString
      (losses_run None) = Some rows
    /\ rows_named "AEP" rows = []
    /\ length rows = 4%nat.
Proof.
  eexists. split; [reflexivity|].
  pose proof (single_csv_metric_rows Z Platform.Z_toString Platform.utc_toISOString
                (losses_run None) _ eq_refl) as (_ & _ & H & _).
  split; [|reflexivity].
  exact (H "AEP" "GWh" Types.aep_gwh (list_elem_of_here _ _)).
Defined.

(** X11. [exportComparisonToCSV] throws exactly when some analysis of
    the list has a creation time that is present, not empty, and not a
    date; the completion times play no part. *)
Theorem comparison_csv_throws_iff_invalid_date
    (number : Type) (zero : number) (toString : number -> string)
    (Date_toISOString : string -> option string)
    (today : string) (analyses : list (Types.AnalysisResponse number)) :
  ExportUtils.exportComparisonToCSV number zero toString Date_toISOString today analyses
  = ExportUtils.RangeError
  <-> exists a, a ∈ analyses /\ invalid_date Date_toISOString (Types.created_at a).
Proof.
  unfold ExportUtils.exportComparisonToCSV. destruct analyses as [|a analyses].
  - simpl. split; [discriminate|]. intros (a & Ha & _). now apply elem_of_nil in Ha.
  - cbn [length Nat.eqb].
    destruct (mapM _ (a :: analyses)) as [rows|] eqn:Hrows.
    + split; [discriminate|]. intros (b & Hb & Hbad).
      apply (comparison_row_None toString Date_toISOString zero) in Hbad.
      assert (mapM (ExportUtils.comparison_row number zero toString Date_toISOString)
                (a :: analyses) = None) as Hnone.
      { apply mapM_None. apply Exists_exists. eauto. }
      congruence.
    + split; [|reflexivity]. intros _.
      apply mapM_None, Exists_exists in Hrows as (b & Hb & Hbad).
      exists b. split; [exact Hb|].
      now apply (comparison_row_None toString Date_toISOString zero).
Qed.

Section CsvLineFacts.
Import Text ExportUtils.

Lemma string_app_cons x (a b : string) : String x a +:+ b = String x (a +:+ b).
Proof. reflexivity. Qed.

Lemma string_app_nil (b : string) : EmptyString +:+ b = b.
Proof. reflexivity. Qed.

Lemma string_app_assoc (a b c : string) : (a +:+ b) +:+ c = a +:+ b +:+ c.
Proof.
  induction a as [|x a IH]; [reflexivity|]. rewrite !string_app_cons. now f_equal.
Qed.

Lemma includes_dquote_cons x cell :
  includes (String x cell) dquote = false ->
  x <> "034"%char /\ includes cell dquote = false.
Proof.
  cbn [includes starts_with dquote]. intros H. apply orb_false_elim in H as [Hx Hcell].
  split; [|exact Hcell]. intros ->. discriminate Hx.
Qed.

(** A quote-free cell ends at the first double quote. *)
Lemma quoted_cell_inj (cell cell' rest rest' : string) :
  includes cell dquote = false -> includes cell' dquote = false ->
  cell +:+ dquote +:+ rest = cell' +:+ dquote +:+ rest' ->
  cell = cell' /\ rest = rest'.
Proof.
  unfold dquote at 3 4.
  revert cell'. induction cell as [|x cell IH]; intros [|x' cell'] Hc Hc' Heq;
    rewrite ?string_app_cons, ?string_app_nil in Heq.
  - injection Heq as ->. auto.
  - apply includes_dquote_cons in Hc' as [Hx _].
    injection Heq as Hx' _. now subst.
  - apply includes_dquote_cons in Hc as [Hx _].
    injection Heq as Hx' _. now subst.
  - apply includes_dquote_cons in Hc as [_ Hc].
    apply includes_dquote_cons in Hc' as [_ Hc'].
    injection Heq as -> Heq.
    destruct (IH cell' Hc Hc' Heq) as [-> ->]. auto.
Qed.

Lemma csv_line_cons (cell : string) (row : list string) :
  csv_line (cell :: row)
  = dquote +:+ cell +:+ dquote
    +:+ match row with [] => EmptyString | _ => "," +:+ csv_line row end.
Proof.
  unfold csv_line. destruct row as [|cell' row].
  - reflexivity.
  - cbn [List.map join]. rewrite !string_app_assoc. reflexivity.
Qed.

Lemma csv_line_inj (row row' : list string) :
  quote_free row -> quote_free row' -> csv_line row = csv_line row' -> row = row'.
Proof.
  revert row'. induction row as [|cell row IH]; intros [|cell' row'] Hq Hq' Heq.
  - reflexivity.
  - rewrite csv_line_cons in Heq. discriminate Heq.
  - rewrite csv_line_cons in Heq. discriminate Heq.
  - rewrite !csv_line_cons in Heq. unfold dquote at 1 3 in Heq.
    rewrite !string_app_cons, !string_app_nil in Heq. injection Heq as Heq.
    apply Forall_cons in Hq as [Hc Hq]. apply Forall_cons in Hq' as [Hc' Hq'].
    apply quoted_cell_inj in Heq as [-> Heq]; [|assumption..].
    f_equal. destruct row as [|c row], row' as [|c' row']; try discriminate Heq.
    + reflexivity.
    + apply IH; [assumption..|]. now injection Heq.
Qed.

End CsvLineFacts.

(** X12. The line the exports write for a row determines the row, as
    long as no cell holds a double quote: cells with commas are safe.
    Cells are not escaped, though, so a cell that does hold double
    quotes can make two different rows come out as the same line. *)
Theorem csv_line_injective_without_quotes :
  (forall row row', quote_free row -> quote_free row' ->
     ExportUtils.csv_line row = ExportUtils.csv_line row' -> row = row')
  /\ [two_in_one] <> ["a"; "b"]
  /\ ExportUtils.csv_line [two_in_one] = ExportUtils.csv_line ["a"; "b"].
Proof.
  split; [exact csv_line_inj|]. split; [discriminate|reflexivity].
Qed.

(** ** More on the result panel and the charts *)

Section PanelCountFacts.
Import Types.
Context {number : Type} (toFixed : nat -> number -> string)
        (Math_abs : number -> number) (negative : number -> bool).

Lemma shown_length {A : Type} (x : option number) (a : A) :
  length (match x with Some _ => [a] | None => [] end)
  = length (match x with Some v => [v] | None => [] end).
Proof. now destruct x. Qed.

Lemma panel_push_length x entry m :
  length (ResultPanel.push_present number x entry m)
  = (length m + length (match x with Some v => [v] | None => [] end))%nat.
Proof. destruct x; simpl; [apply length_app|lia]. Qed.

Lemma chart_push_length x bar m :
  length (ChartTransforms.push_present number x bar m)
  = (length m + length (match x with Some v => [v] | None => [] end))%nat.
Proof. destruct x; simpl; [apply length_app|lia]. Qed.

Lemma present_metrics_sum (r : AnalysisResult number) :
  present_metrics r
  = (length (match aep_gwh r with Some v => [v] | None => [] end)
     + length (match ideal_energy_gwh r with Some v => [v] | None => [] end)
     + length (match total_loss_pct r with Some v => [v] | None => [] end)
     + length (match wake_loss_pct r with Some v => [v] | None => [] end)
     + length (match gap_pct r with Some v => [v] | None => [] end)
     + length (match uncertainty_pct r with Some v => [v] | None => [] end)
     + length (match capacity_factor r with Some v => [v] | None => [] end)
     + length (match plant_capacity_mw r with Some v => [v] | None => [] end))%nat.
Proof.
  unfold present_metrics. cbn [omap list_omap].
  destruct (aep_gwh r), (ideal_energy_gwh r), (total_loss_pct r), (wake_loss_pct r),
    (gap_pct r), (uncertainty_pct r), (capacity_factor r), (plant_capacity_mw r);
    reflexivity.
Qed.

Lemma panel_length (r : AnalysisResult number) :
  length (ResultPanel.metrics number toFixed r) = present_metrics r.
Proof.
  rewrite present_metrics_sum. unfold ResultPanel.metrics.
  rewrite !panel_push_length. simpl. lia.
Qed.

Lemma chart_length (r : AnalysisResult number) :
  length (ChartTransforms.transformAnalysisToChartData_metrics
            number toFixed Math_abs negative r)
  = present_metrics r.
Proof.
  rewrite present_metrics_sum. unfold ChartTransforms.transformAnalysisToChartData_metrics.
  rewrite !chart_push_length. simpl. lia.
Qed.

Lemma shown_sublist (x : option number) (l : string) :
  match x with Some _ => [l] | None => [] end `sublist_of` [l].
Proof. destruct x; [reflexivity|apply sublist_nil_l]. Qed.

Lemma panel_labels_NoDup (r : AnalysisResult number) :
  NoDup (List.map ResultPanel.label (ResultPanel.metrics number toFixed r)).
Proof.
  rewrite metrics_labels.
  eapply (sublist_NoDup _
            (["Net AEP"] ++ ["Ideal Energy"] ++ ["Electrical Losses"] ++ ["Wake Losses"]
             ++ ["Gap"] ++ ["Uncertainty"] ++ ["Capacity Factor"] ++ ["Plant Capacity"])%list).
  - apply (bool_decide_unpack _). vm_compute. reflexivity.
  - repeat (apply sublist_app; [apply shown_sublist|]). apply shown_sublist.
Qed.

End PanelCountFacts.

(** X13. The cards of the result panel carry pairwise different
    labels (the labels are their React keys), and the panel and the bar
    chart show the same number of entries: one for each of the eight
    metrics the result has, however these are combined. *)
Theorem panel_and_chart_show_present_metrics
    (number : Type) (toFixed : nat -> number -> string)
    (Math_abs : number -> number) (negative : number -> bool)
    (r : Types.AnalysisResult number) :
  NoDup (List.map ResultPanel.label (ResultPanel.metrics number toFixed r))
  /\ length (ResultPanel.metrics number toFixed r) = present_metrics r
  /\ length (ChartTransforms.transformAnalysisToChartData_metrics
               number toFixed Math_abs negative r)
     = length (ResultPanel.metrics number toFixed r).
Proof.
  split; [apply panel_labels_NoDup|]. split; [apply panel_length|].
  now rewrite chart_length, panel_length.
Qed.

(** X14. Whatever the letter case in which a result names one of the
    five analysis types, the panel gives it the title of that type:
    no type name falls through to the generic [Analysis Results], and no
    type name is caught by the test of an earlier type. *)
Theorem title_of_each_type
    (number : Type) (r : Types.AnalysisResult number) (t : AnalysisType) :
  Text.toLowerCase (Types.analysis_type r) = type_name t ->
  ResultPanel.getTitle number r
  = match t with
    | aep_monte_carlo => "AEP Results"
    | electrical_losses => "Electrical Losses Results"
    | wake_losses => "Wake Losses Results"
    | turbine_ideal_energy => "Turbine Ideal Energy Results"
    | eya_gap_analysis => "EYA Gap Analysis Results"
    end.
Proof.
  intros Htype. unfold ResultPanel.getTitle. rewrite Htype.
  destruct t; vm_compute; reflexivity.
Qed.

Lemma title_of_each_type_witness :
  ResultPanel.getTitle PrimFloat.float shouting_result = "EYA Gap Analysis Results".
Proof.
  exact (title_of_each_type PrimFloat.float shouting_result eya_gap_analysis eq_refl).
Defined.

Section BreakdownFacts.
Import PrimFloat.

(** X15. On doubles: a result without a capacity factor gets the
    same five-slice capacity breakdown whatever else it holds: 35 for
    net production, 8, 2 and 5 for the three estimated losses, and 50
    for low wind, none of them filtered out. *)
Theorem breakdown_without_capacity_factor (r : Types.AnalysisResult PrimFloat.float) :
  Types.capacity_factor r = None ->
  List.map (fun d => (ChartBreakdown.id d, ChartBreakdown.value d))
    (ChartBreakdown.breakdown r)
  = [ ("production", 35%float); ("losses", 8%float); ("curtailment", 2%float);
      ("unavailable", 5%float); ("wind", 50%float) ].
Proof.
  intros Hcf. unfold ChartBreakdown.breakdown, ChartBreakdown.slices. rewrite Hcf.
  vm_compute. reflexivity.
Qed.

Lemma breakdown_without_capacity_factor_witness :
  length (ChartBreakdown.breakdown shouting_result) = 5%nat.
Proof.
  pose proof (breakdown_without_capacity_factor shouting_result eq_refl) as H.
  apply (f_equal (@length _)) in H. rewrite length_map in H. exact H.
Defined.

End BreakdownFacts.

(** ** The file upload component *)

Section FileUploadFacts.
Import FileUpload.

Lemma run_from_app (s : State) (events more : list event) :
  run_from s (events ++ more)
  = let '(s', calls) := run_from s events in
    let '(s'', calls') := run_from s' more in
    (s'', (calls ++ calls')%list).
Proof.
  revert s. induction events as [|e events IH]; intros s; simpl.
  - now destruct (run_from s more).
  - destruct (step s e) as [s1 calls1]. rewrite IH.
    destruct (run_from s1 events) as [s2 calls2].
    destruct (run_from s2 more) as [s3 calls3]. now rewrite app_assoc.
Qed.

Lemma step_selected (s : State) (e : event) (file : Api.File) :
  selectedFile (fst (step s e)) = Some file ->
  selectedFile s = Some file \/ offered e = Some file.
Proof.
  destruct e as [| | |[|f files]|[[|f files]|]| |]; simpl; auto; discriminate.
Qed.

Lemma step_calls (s : State) (e : event) (file : Api.File) :
  file ∈ snd (step s e) -> e = Upload /\ selectedFile s = Some file.
Proof.
  destruct e; simpl; try (intros H; now apply elem_of_nil in H).
  unfold handleUpload. destruct (selectedFile s) as [f|].
  - intros H. apply list_elem_of_singleton in H as ->. auto.
  - intros H. now apply elem_of_nil in H.
Qed.

Lemma run_from_sound (events : list event) (s : State) (file : Api.File) :
  (selectedFile (fst (run_from s events)) = Some file -> from_events s events file)
  /\ (file ∈ snd (run_from s events) ->
      Upload ∈ events /\ from_events s events file).
Proof.
  revert s. induction events as [|e events IH]; intros s; simpl.
  - split; [now left|]. intros H. now apply elem_of_nil in H.
  - pose proof (step_selected s e file) as Hsel.
    pose proof (step_calls s e file) as Hcalls.
    destruct (step s e) as [s1 calls1]. simpl in Hsel, Hcalls.
    specialize (IH s1). destruct (run_from s1 events) as [s2 calls2]. simpl in IH |- *.
    destruct IH as [IHsel IHcalls].
    assert (from_events s1 events file -> from_events s (e :: events) file) as Hlift.
    { intros [H|(e' & He' & Hoff)].
      - destruct (Hsel H) as [H'|H']; [now left|].
        right. exists e. split; [apply list_elem_of_here|exact H'].
      - right. exists e'. split; [now apply list_elem_of_further|exact Hoff]. }
    split; [auto|]. intros H. apply elem_of_app in H as [H|H].
    + destruct (Hcalls H) as [-> Hs]. split; [apply list_elem_of_here|now left].
    + destruct (IHcalls H) as [Hup Hfrom].
      split; [now apply list_elem_of_further|auto].
Qed.

End FileUploadFacts.

(** X16. Every file the upload component hands to [onFileUpload] is
    the first file of an earlier drop or file-input change, and it is
    handed over only when the Upload button is pressed: dropping or
    choosing a file uploads nothing by itself. *)
Theorem uploads_only_offered_files
    (events : list FileUpload.event) (file : Api.File) :
  file ∈ snd (FileUpload.run events) ->
  FileUpload.Upload ∈ events
  /\ exists e, e ∈ events /\ FileUpload.offered e = Some file.
Proof.
  intros H. destruct (proj2 (run_from_sound events FileUpload.initial file) H)
    as [Hup [Hsel|Hoff]]; [discriminate Hsel|auto].
Qed.

Lemma uploads_only_offered_files_witness :
  FileUpload.Upload ∈ [FileUpload.Drop [sample_file]; FileUpload.Upload]
  /\ exists e, e ∈ [FileUpload.Drop [sample_file]; FileUpload.Upload]
               /\ FileUpload.offered e = Some sample_file.
Proof.
  apply (uploads_only_offered_files
           [FileUpload.Drop [sample_file]; FileUpload.Upload] sample_file).
  apply list_elem_of_here.
Defined.

(** X17. After Remove, the Upload button does nothing until a file is
    selected again: the uploads of a run are not changed by a Remove
    followed by an Upload, while a drop of some files followed by an
    Upload adds the upload of the first of them; a drop of no file at
    all keeps the selection. *)
Theorem remove_then_upload_does_nothing (events : list FileUpload.event) :
  snd (FileUpload.run (events ++ [FileUpload.Remove; FileUpload.Upload]))
  = snd (FileUpload.run events)
  /\ (forall file files,
        snd (FileUpload.run (events ++ [FileUpload.Drop (file :: files); FileUpload.Upload]))
        = (snd (FileUpload.run events) ++ [file])%list)
  /\ FileUpload.selectedFile (fst (FileUpload.run (events ++ [FileUpload.Drop []])))
     = FileUpload.selectedFile (fst (FileUpload.run events)).
Proof.
  unfold FileUpload.run. split; [|split]; [|intros file files|];
    rewrite run_from_app;
    destruct (FileUpload.run_from FileUpload.initial events) as [s calls]; simpl.
  - now rewrite app_nil_r.
  - reflexivity.
  - reflexivity.
Qed.
